(** * zeebe-client-node-js: the connection classifier and the client facade

    A shallow embedding of [src/lib/ConnectionFactory.ts] and of the
    [ZBClient] class, with the properties its specification states about
    them.

    JavaScript strings are [string] (the patterns the code searches for are
    ASCII), numbers are the integers, as [Z] (the code tests them for
    truthiness, passes them on and prints them in JSON text; NaN and
    fractions are left out), objects are property lists in insertion order,
    and the request objects that [ZBClient] mutates live in a store indexed
    by reference. *)

From Stdlib Require Import ZArith Lia String Ascii List Bool.
From stdpp Require Import base option list gmap strings pretty.

Local Set Warnings "-register-all".
Local Open Scope string_scope.
Local Open Scope Z_scope.
Local Open Scope list_scope.

(** ** The JavaScript built-ins the source calls *)
Module JS.

(** [s.startsWith(t)] *)
Fixpoint startsWith (s t : string) {struct t} : bool :=
  match t, s with
  | EmptyString, _ => true
  | String c t', String d s' => Ascii.eqb c d && startsWith s' t'
  | String _ _, EmptyString => false
  end.

(** [s.includes(t)]: [t] occurs in [s] at some offset. *)
Fixpoint includes (s t : string) : bool :=
  startsWith s t ||
  match s with
  | EmptyString => false
  | String _ s' => includes s' t
  end.

(** [s.indexOf(c)] for a one-character pattern: the offset of the first
    occurrence, or -1. *)
Fixpoint indexOf (s : string) (c : ascii) : Z :=
  match s with
  | EmptyString => -1
  | String d s' =>
      if Ascii.eqb d c then 0
      else let i := indexOf s' c in if i =? -1 then -1 else i + 1
  end.

(** Values.  An object is the list of its own properties, oldest first. *)
Inductive Value :=
| VUndefined
| VNull
| VBool (b : bool)
| VNumber (n : Z)
| VString (s : string)
| VArray (xs : list Value)
| VObject (props : list (string * Value)).

Inductive Error :=
| JsError (message : string)      (* [new Error(message)] *)
| TypeError (message : string)    (* raised by the runtime *)
| FsError (path : string)         (* [fs.readFileSync] failed *)
| GrpcError (details : Value).    (* a rejected transport call *)

Definition typeof (v : Value) : string :=
  match v with
  | VUndefined => "undefined"
  | VNull => "object"
  | VBool _ => "boolean"
  | VNumber _ => "number"
  | VString _ => "string"
  | VArray _ => "object"
  | VObject _ => "object"
  end.

(** ToBoolean *)
Definition truthy (v : Value) : bool :=
  match v with
  | VUndefined => false
  | VNull => false
  | VBool b => b
  | VNumber n => negb (n =? 0)
  | VString EmptyString => false
  | VString (String _ _) => true
  | VArray _ => true
  | VObject _ => true
  end.

(** [a || b] *)
Definition logical_or (a b : Value) : Value := if truthy a then a else b.

(** [o.k]: the value of an own property, [undefined] when there is none. *)
Fixpoint get (o : list (string * Value)) (k : string) : Value :=
  match o with
  | [] => VUndefined
  | (k', v) :: o' => if String.eqb k' k then v else get o' k
  end.

(** [o.k = v]: an existing property keeps its place, a new one goes last. *)
Fixpoint set (o : list (string * Value)) (k : string) (v : Value)
  : list (string * Value) :=
  match o with
  | [] => [(k, v)]
  | (k', v') :: o' =>
      if String.eqb k' k then (k, v) :: o' else (k', v') :: set o' k v
  end.

(** [{...a, ...b}] *)
Definition spread (a b : list (string * Value)) : list (string * Value) :=
  fold_left (fun acc p => set acc p.1 p.2) b a.

(** [v.k] on an arbitrary value: reading a property of [undefined] or
    [null] throws; primitives and arrays have no own property of the names
    the source reads. *)
Definition field (v : Value) (k : string) : Error + Value :=
  match v with
  | VUndefined => inl (TypeError ("Cannot read property " +:+ k +:+ " of undefined"))
  | VNull => inl (TypeError ("Cannot read property " +:+ k +:+ " of null"))
  | VObject o => inr (get o k)
  | _ => inr VUndefined
  end.

(** SameValueZero, the comparison of [Array.prototype.includes]: primitives
    by value, objects by identity (two values of the model that are objects
    are never the same object). *)
Definition sameValueZero (a b : Value) : bool :=
  match a, b with
  | VUndefined, VUndefined => true
  | VNull, VNull => true
  | VBool x, VBool y => Bool.eqb x y
  | VNumber x, VNumber y => x =? y
  | VString x, VString y => String.eqb x y
  | _, _ => false
  end.

(** [xs.includes(v)] *)
Definition array_includes (xs : list Value) (v : Value) : bool :=
  existsb (fun x => sameValueZero x v) xs.

(** *** JSON.stringify *)

Definition chr (n : N) : string := String (ascii_of_N n) EmptyString.

Definition hex_digit (n : N) : string :=
  chr (if (n <? 10)%N then 48 + n else 87 + n)%N.

(** One code unit of QuoteJSONString: the quote and the backslash get a
    backslash, the control characters their short form or [\u00xx]. *)
Definition escape_char (c : ascii) : string :=
  let n := N_of_ascii c in
  if (n =? 34)%N then chr 92 +:+ chr 34
  else if (n =? 92)%N then chr 92 +:+ chr 92
  else if (n =? 8)%N then chr 92 +:+ "b"
  else if (n =? 12)%N then chr 92 +:+ "f"
  else if (n =? 10)%N then chr 92 +:+ "n"
  else if (n =? 13)%N then chr 92 +:+ "r"
  else if (n =? 9)%N then chr 92 +:+ "t"
  else if (n <? 32)%N then
    chr 92 +:+ "u00" +:+ hex_digit (n / 16) +:+ hex_digit (n mod 16)
  else String c EmptyString.

Fixpoint escape (s : string) : string :=
  match s with
  | EmptyString => EmptyString
  | String c s' => escape_char c +:+ escape s'
  end.

Definition quote (s : string) : string := chr 34 +:+ escape s +:+ chr 34.

(** *** Number::toString, on integers

    A number is a double.  [VNumber n] is the Number value for [n]: [n]
    itself up to 2^53 in size, beyond that the nearest double, ties to the
    even significand, and infinity from 2^1024 - 2^970 on. *)

(** The Number value for [n >= 2^53]; [None] is infinity. *)
Definition to_double (n : Z) : option Z :=
  let k := Z.log2 n - 52 in
  let m := Z.shiftr n k in
  let r := n - Z.shiftl m k in
  let half := Z.shiftl 1 (k - 1) in
  let m := if (half <? r) || ((r =? half) && Z.odd m) then m + 1 else m in
  let x := Z.shiftl m k in
  if 2 ^ 1024 <=? x then None else Some x.

(** Whether the real [c] rounds to the double [x >= 2^53]: it lies within
    half the gap to the next double on either side, the ends counting when
    the significand of [x] is even.  Below a power of two the gap is half as
    wide.  Everything is taken four times to stay in the integers. *)
Definition rounds_to (x c : Z) : bool :=
  let e := Z.log2 x in
  let ulp := Z.shiftl 1 (e - 52) in
  let up := 2 * ulp in
  let down := if x =? Z.shiftl 1 e then ulp else 2 * ulp in
  if Z.even (Z.shiftr x (e - 52))
  then (4 * x - down <=? 4 * c) && (4 * c <=? 4 * x + up)
  else (4 * x - down <? 4 * c) && (4 * c <? 4 * x + up).

(** The decimal with the fewest digits that rounds to [x]; with a choice,
    the one nearest to [x], and of two equally near the one whose last
    digit is even.  [j] zeros are tried first, then fewer. *)
Fixpoint shortest (x : Z) (j : nat) : Z :=
  match j with
  | O => x
  | S j' =>
      let p := 10 ^ Z.of_nat j in
      let lo := x / p * p in
      let hi := lo + p in
      match rounds_to x lo, rounds_to x hi with
      | true, true =>
          if x - lo <? hi - x then lo
          else if hi - x <? x - lo then hi
          else if Z.even (x / p) then lo else hi
      | true, false => lo
      | false, true => hi
      | false, false => shortest x j'
      end
  end.

Fixpoint strip_zeros (digits : list ascii) : list ascii :=
  match digits with
  | [] => []
  | d :: ds =>
      match strip_zeros ds with
      | [] => if Ascii.eqb d "0" then [] else [d]
      | ds' => d :: ds'
      end
  end.

(** The digits of [c > 0] as Number::toString lays them out: in full up to
    21 digits, otherwise one digit, the rest after a point, and the
    exponent. *)
Definition layout (c : Z) : string :=
  let digits := pretty c in
  let n := String.length digits in
  if (n <=? 21)%nat then digits
  else
    match strip_zeros (list_ascii_of_string digits) with
    | [] => digits
    | d :: ds =>
        String d (match ds with
                  | [] => EmptyString
                  | _ :: _ => "." +:+ string_of_list_ascii ds
                  end)
        +:+ "e+" +:+ pretty (Z.of_nat n - 1)
    end.

(** [String(n)]; [None] when the Number value is not finite. *)
Definition number_to_string (n : Z) : option string :=
  if Z.abs n <? 2 ^ 53 then Some (pretty n)
  else
    match to_double (Z.abs n) with
    | None => None
    | Some x =>
        let c := shortest x (String.length (pretty x) - 1) in
        Some ((if n <? 0 then "-" else EmptyString) +:+ layout c)
    end.

(** SerializeJSONProperty: [None] is [undefined], which an array prints as
    [null] and an object leaves out together with its key; a number that is
    not finite prints as [null].  A value is a finite tree of these seven
    kinds, so the two things [JSON.stringify] throws on, a BigInt and an
    object that contains itself, are not values here. *)
Fixpoint serialize (v : Value) : option string :=
  match v with
  | VUndefined => None
  | VNull => Some "null"
  | VBool b => Some (if b then "true" else "false")
  | VNumber n => Some (default "null" (number_to_string n))
  | VString s => Some (quote s)
  | VArray xs =>
      Some ("[" +:+
            String.concat "," (map (fun x => default "null" (serialize x)) xs)
            +:+ "]")
  | VObject ps =>
      Some ("{" +:+
            String.concat ","
              (omap (fun p => (fun t => quote p.1 +:+ ":" +:+ t) <$> serialize p.2) ps)
            +:+ "}")
  end.

(** [JSON.stringify(v)] *)
Definition JSON_stringify (v : Value) : Value :=
  match serialize v with
  | Some s => VString s
  | None => VUndefined
  end.


End JS.

(** ** src/lib/ConnectionFactory.ts *)
Module ConnectionFactory.

Inductive GrpcConnectionProfile := CAMUNDA_CLOUD | VANILLA.

Record Characteristics := {
  startupTime : Z;
  _tag : GrpcConnectionProfile
}.

Definition ConnectionCharacteristics (key : GrpcConnectionProfile)
  : Characteristics :=
  match key with
  | CAMUNDA_CLOUD => {| _tag := CAMUNDA_CLOUD; startupTime := 5000 |}
  | VANILLA => {| _tag := VANILLA; startupTime := 0 |}
  end.

Inductive State := ERROR | CONNECTED.

Definition getCharacteristics (host : string) : Characteristics :=
  let isCamundaCloud := JS.includes host "zeebe.camunda.io" in
  let profile := if isCamundaCloud then CAMUNDA_CLOUD else VANILLA in
  ConnectionCharacteristics profile.

End ConnectionFactory.

(** ** The ZBClient class *)
Module ZBClient.
Import JS.

(** The operations of the gRPC gateway client that [ZBClient] calls. *)
Inductive Method :=
| topologySync
| deployWorkflowSync
| publishMessageSync
| updateJobRetriesSync
| failJobSync
| createWorkflowInstanceSync
| cancelWorkflowInstanceSync
| setVariablesSync
| listWorkflowsSync
| getWorkflowSync
| resolveIncidentSync.

(** What a run leaves behind outside the program: the calls sent to the
    broker, each with the argument as it was when the call was made, and
    the files read. *)
Inductive Event :=
| Remote (m : Method) (payload : Value)
| ReadFile (path : string).

Inductive Promise :=
| Resolved (v : Value)
| Rejected (e : Error).

(** The collaborators: the process environment, the file system, the
    broker behind the transport (its answer may depend on everything that
    happened before), the BPMN parser of [../lib], and the [close] method
    of the worker with a given id, which returns a promise or throws. *)
Record Env := {
  ZB_NODE_LOG_LEVEL : option string;
  proto_path : string;
  transport : list Event -> Method -> Value -> Promise;
  readFileSync : string -> Error + string;
  basename : string -> string;
  getProcessId : string -> Value;
  getTaskTypes : list string -> Error + Value;
  worker_close : string -> Error + unit
}.

(** The mutable world: the request objects the caller holds, by reference,
    and the trace of events. *)
Record World := {
  heap : gmap nat (list (string * Value));
  trace : list Event
}.

(** Computations that may throw; what was done before the throw stays
    done. *)
Definition M (A : Type) : Type := World -> (Error + A) * World.

Definition ret {A} (a : A) : M A := fun w => (inr a, w).

Definition throw {A} (e : Error) : M A := fun w => (inl e, w).

Definition bind {A B} (m : M A) (k : A -> M B) : M B :=
  fun w =>
    match m w with
    | (inl e, w') => (inl e, w')
    | (inr a, w') => k a w'
    end.

Notation "x <- m ;; k" := (bind m (fun x => k))
  (at level 100, m at next level, right associativity).

Fixpoint map_err {A B} (f : A -> Error + B) (l : list A) : Error + list B :=
  match l with
  | [] => inr []
  | a :: l' =>
      match f a with
      | inl e => inl e
      | inr b =>
          match map_err f l' with
          | inl e => inl e
          | inr bs => inr (b :: bs)
          end
      end
  end.

Definition lift {A} (r : Error + A) : M A :=
  match r with inl e => throw e | inr a => ret a end.

Fixpoint mapM {A B} (f : A -> M B) (l : list A) : M (list B) :=
  match l with
  | [] => ret []
  | a :: l' => b <- f a ;; bs <- mapM f l' ;; ret (b :: bs)
  end.

(** [this.gRPCClient.<m>(payload)] *)
Definition call (env : Env) (m : Method) (payload : Value) : M Promise :=
  fun w =>
    (inr (transport env (trace w) m payload),
     {| heap := heap w; trace := trace w ++ [Remote m payload] |}).

(** [fs.readFileSync(path)] *)
Definition readFile (env : Env) (path : string) : M string :=
  fun w =>
    (readFileSync env path,
     {| heap := heap w; trace := trace w ++ [ReadFile path] |}).

(** Dereference a request object; [undefined] stands where no object is. *)
Definition load (r : nat) : M (list (string * Value)) :=
  fun w =>
    match heap w !! r with
    | Some o => (inr o, w)
    | None => (inl (TypeError "Cannot read property of undefined"), w)
    end.

(** [r.k = v] on the object itself. *)
Definition assign (r : nat) (k : string) (v : Value) : M unit :=
  fun w =>
    match heap w !! r with
    | Some o => (inr tt, {| heap := <[r := set o k v]> (heap w); trace := trace w |})
    | None => (inl (TypeError "Cannot set property of undefined"), w)
    end.

(** [await p] *)
Definition await (p : Promise) : M Value :=
  match p with
  | Resolved v => ret v
  | Rejected e => throw e
  end.

(** The body of an [async] method: a throw becomes a rejection. *)
Definition async (m : M Value) : M Promise :=
  fun w =>
    match m w with
    | (inl e, w') => (inr (Rejected e), w')
    | (inr v, w') => (inr (Resolved v), w')
    end.

(** Modelled from the spec: [stringifyVariables] of [../lib], whose source
    is not part of the files at hand.  "Structured variable payloads passed
    by the caller are serialized to a JSON-text document before
    transmission": the result is a copy of the request whose [variables]
    is the JSON text, every other property as it was. *)
Definition stringifyVariables (request : list (string * Value))
  : list (string * Value) :=
  set request "variables" (JSON_stringify (get request "variables")).

Inductive Chalk := yellow | green | cyan | magenta | blue.

Definition idColors : list Chalk := [yellow; green; cyan; magenta; blue].

Record GRPCClient := {
  proto : string;
  package : string;
  service : string;
  address : string
}.

(** A worker, as far as the client is concerned, is what it was built from.
    Functions are referred to by an opaque handle. *)
Record ZBWorker := {
  w_gRPCClient : GRPCClient;
  w_id : string;
  w_idColor : option Chalk;
  w_onConnectionError : option nat;
  w_options : list (string * Value);
  w_taskHandler : nat;
  w_taskType : string
}.

Record ZBClient := {
  brokerAddress : string;
  closePromise : option (list ZBWorker);   (* [Promise.all] of their closes *)
  closing : bool;
  gRPCClient : GRPCClient;
  options : list (string * Value);
  workerCount : nat;
  workers : list ZBWorker
}.

Definition env_value (v : option string) : Value :=
  match v with Some s => VString s | None => VUndefined end.

(** [new ZBClient(brokerAddress, options)].  The source writes the resolved
    log level into the options object it was given; the client's copy is
    what is kept here. *)
Definition constructor (env : Env) (brokerAddress : string)
  (options : option (list (string * Value))) : Error + ZBClient :=
  let options := default [] options in
  if negb (truthy (VString brokerAddress)) then
    inl (JsError "Must provide a broker address string to constructor")
  else
    let this_options := options in
    let this_options :=
      set this_options "loglevel"
        (logical_or (env_value (ZB_NODE_LOG_LEVEL env))
           (logical_or (get options "loglevel") (VString "INFO"))) in
    let brokerAddress :=
      if indexOf brokerAddress ":" =? -1 then brokerAddress +:+ ":26500"
      else brokerAddress in
    inr {| brokerAddress := brokerAddress;
           closePromise := None;
           closing := false;
           gRPCClient := {| proto := proto_path env;
                            package := "gateway_protocol";
                            service := "Gateway";
                            address := brokerAddress |};
           options := this_options;
           workerCount := 0;
           workers := [] |}.

(** [createWorker(id, taskType, taskHandler, options, onConnectionError)] *)
Definition createWorker (this : ZBClient) (id taskType : string)
  (taskHandler : nat) (options : option (list (string * Value)))
  (onConnectionError : option nat) : (Error + ZBWorker) * ZBClient :=
  let opts := default [] options in
  if closing this then
    (inl (JsError "Client is closing. No worker creation allowed!"), this)
  else
    let idColor := idColors !! (workerCount this mod length idColors)%nat in
    let worker :=
      {| w_gRPCClient := gRPCClient this;
         w_id := id;
         w_idColor := idColor;
         w_onConnectionError := onConnectionError;
         w_options := spread (ZBClient.options this) opts;
         w_taskHandler := taskHandler;
         w_taskType := taskType |} in
    (inr worker,
     {| brokerAddress := brokerAddress this;
        closePromise := closePromise this;
        closing := closing this;
        gRPCClient := gRPCClient this;
        options := ZBClient.options this;
        workerCount := S (workerCount this);
        workers := workers this ++ [worker] |}).

(** [close()]: the flag is set before the workers are asked to close, so
    it stays set when one of them throws. *)
Definition close (env : Env) (this : ZBClient)
  : (Error + list ZBWorker) * ZBClient :=
  match closePromise this with
  | Some p => (inr p, this)
  | None =>
      let closed (p : option (list ZBWorker)) :=
        {| brokerAddress := brokerAddress this;
           closePromise := p;
           closing := true;
           gRPCClient := gRPCClient this;
           options := ZBClient.options this;
           workerCount := workerCount this;
           workers := workers this |} in
      match map_err (fun w => worker_close env (w_id w)) (workers this) with
      | inl e => (inl e, closed None)
      | inr _ => (inr (workers this), closed (Some (workers this)))
      end
  end.

(** [topology()] *)
Definition topology (env : Env) : M Promise := call env topologySync VUndefined.

(** [listWorkflows(bpmnProcessId?)] *)
Definition listWorkflows (env : Env) (bpmnProcessId : option string) : M Promise :=
  call env listWorkflowsSync (VObject [("bpmnProcessId", env_value bpmnProcessId)]).

(** A file read by [deployWorkflow]; the buffer is the text it holds. *)
Record WorkflowRequestObject := {
  definition : string;
  name : string;
  type : Z
}.

Definition wfr_value (wfr : WorkflowRequestObject) : Value :=
  VObject [("definition", VString (definition wfr));
           ("name", VString (name wfr));
           ("type", VNumber (type wfr))].

(** The value [deployWorkflow] resolves to when nothing is left to deploy. *)
Definition nothing_deployed : Value :=
  VObject [("key", VNumber (-1)); ("workflows", VArray [])].

(** [Array.isArray(workflow) ? workflow : [workflow]] *)
Definition paths_of (workflow : string + list string) : list string :=
  match workflow with inl wf => [wf] | inr wfs => wfs end.

(** [response.workflows.map(wf => wf.bpmnProcessId)] *)
Definition bpmnProcessIds (response : Value) : Error + list Value :=
  match field response "workflows" with
  | inl e => inl e
  | inr (VArray xs) => map_err (fun wf => field wf "bpmnProcessId") xs
  | inr _ => inl (TypeError "workflows.map is not a function")
  end.

(** [{ definition: fs.readFileSync(wf), name: path.basename(wf), type: 1 }] *)
Definition workflowRequest (env : Env) (wf definition : string)
  : WorkflowRequestObject :=
  {| definition := definition; name := basename env wf; type := 1 |}.

(** The test of the [filter] in [deployWorkflow]. *)
Definition not_deployed (env : Env) (deployedWorkflows : list Value)
  (wfr : WorkflowRequestObject) : bool :=
  negb (array_includes deployedWorkflows (getProcessId env (definition wfr))).

(** [deployWorkflow(workflow, { redeploy = true } = {})] *)
Definition deployWorkflow (env : Env) (workflow : string + list string)
  (redeploy : option bool) : M Promise :=
  let redeploy := default true redeploy in
  async (
    let workflows := paths_of workflow in
    deployedWorkflows <-
      (if negb redeploy then
         p <- listWorkflows env None ;;
         response <- await p ;;
         lift (bpmnProcessIds response)
       else ret []) ;;
    mapped <-
      mapM (fun wf =>
              definition <- readFile env wf ;;
              ret (workflowRequest env wf definition))
           workflows ;;
    let workFlowRequests :=
      List.filter (not_deployed env deployedWorkflows) mapped in
    if (0 <? length workFlowRequests)%nat then
      p <- call env deployWorkflowSync
             (VObject [("workflows", VArray (map wfr_value workFlowRequests))]) ;;
      await p
    else ret nothing_deployed).

(** [getServiceTypesFromBpmn(files)] *)
Definition getServiceTypesFromBpmn (env : Env) (files : string + list string)
  : M Value :=
  let files := match files with inl f => [f] | inr fs => fs end in
  lift (getTaskTypes env files).

(** [publishMessage(publishMessageRequest)].  The request is taken by
    value: what [stringifyVariables] returns is what is sent, and nothing
    is said here about the object the caller keeps. *)
Definition publishMessage (env : Env) (publishMessageRequest : list (string * Value))
  : M Promise :=
  call env publishMessageSync (VObject (stringifyVariables publishMessageRequest)).

(** [publishStartMessage(publishStartMessageRequest)] *)
Definition publishStartMessage (env : Env)
  (publishStartMessageRequest : list (string * Value)) : M Promise :=
  let publishMessageRequest :=
    spread [("correlationKey", VString "__MESSAGE_START_EVENT__")]
           publishStartMessageRequest in
  call env publishMessageSync (VObject (stringifyVariables publishMessageRequest)).

(** [updateJobRetries(updateJobRetriesRequest)] *)
Definition updateJobRetries (env : Env) (updateJobRetriesRequest : list (string * Value))
  : M Promise :=
  call env updateJobRetriesSync (VObject updateJobRetriesRequest).

(** [failJob(failJobRequest)] *)
Definition failJob (env : Env) (failJobRequest : list (string * Value)) : M Promise :=
  call env failJobSync (VObject failJobRequest).

(** [createWorkflowInstance(bpmnProcessId, variables, version?)] *)
Definition createWorkflowInstance (env : Env) (bpmnProcessId : string)
  (variables : Value) (version : Value) : M Promise :=
  let version := logical_or version (VNumber (-1)) in
  let createWorkflowInstanceRequest :=
    [("bpmnProcessId", VString bpmnProcessId);
     ("variables", variables);
     ("version", version)] in
  call env createWorkflowInstanceSync
    (VObject (stringifyVariables createWorkflowInstanceRequest)).

(** [cancelWorkflowInstance(workflowInstanceKey)] *)
Definition cancelWorkflowInstance (env : Env) (workflowInstanceKey : string)
  : M Promise :=
  async (
    p <- call env cancelWorkflowInstanceSync
           (VObject [("workflowInstanceKey", VString workflowInstanceKey)]) ;;
    await p).

(** [setVariables(request)]; [request] is the caller's object. *)
Definition setVariables (env : Env) (request : nat) : M Promise :=
  o <- load request ;;
  u <- (if String.eqb (typeof (get o "variables")) "object"
        then assign request "variables" (JSON_stringify (get o "variables"))
        else ret tt) ;;
  sent <- load request ;;
  call env setVariablesSync (VObject sent).

(** [hasBpmnProcessId(request)] *)
Definition hasBpmnProcessId (request : nat) : M bool :=
  o <- load request ;;
  ret (match get o "bpmnProcessId" with VUndefined => false | _ => true end).

(** [getWorkflow(getWorkflowRequest)]; the request is the caller's object. *)
Definition getWorkflow (env : Env) (getWorkflowRequest : nat) : M Promise :=
  has <- hasBpmnProcessId getWorkflowRequest ;;
  u <- (if has : bool
        then o <- load getWorkflowRequest ;;
             assign getWorkflowRequest "version"
               (logical_or (get o "version") (VNumber (-1)))
        else ret tt) ;;
  sent <- load getWorkflowRequest ;;
  call env getWorkflowSync (VObject sent).

(** [resolveIncident(incidentKey)] *)
Definition resolveIncident (env : Env) (incidentKey : string) : M Promise :=
  call env resolveIncidentSync (VString incidentKey).

(** A close promise is only ever stored together with the closing flag. *)
Definition closing_recorded (c : ZBClient) : Prop :=
  closePromise c = None \/ closing c = true.

(** A computation only ever adds to the trace ... *)
Definition extends {A} (m : M A) : Prop :=
  forall w, exists later, trace (m w).2 = trace w ++ later.

(** ... and this one adds [e] before anything else. *)
Definition starts_with {A} (e : Event) (m : M A) : Prop :=
  forall w, exists later, trace (m w).2 = trace w ++ e :: later.

(** The call by which [deployWorkflow] asks for the deployed workflows. *)
Definition listing : Method * Value :=
  (listWorkflowsSync, VObject [("bpmnProcessId", VUndefined)]).

(** The argument of the deploy call for the files that are left. *)
Definition deployment (kept : list WorkflowRequestObject) : Method * Value :=
  (deployWorkflowSync, VObject [("workflows", VArray (map wfr_value kept))]).

(** *** Runs of a client: any sequence of calls of its public methods *)

Inductive Op :=
| CreateWorker (id taskType : string) (taskHandler : nat)
    (options : option (list (string * Value))) (onConnectionError : option nat)
| Close
| Topology
| DeployWorkflow (workflow : string + list string) (redeploy : option bool)
| GetServiceTypesFromBpmn (files : string + list string)
| PublishMessage (request : list (string * Value))
| PublishStartMessage (request : list (string * Value))
| UpdateJobRetries (request : list (string * Value))
| FailJob (request : list (string * Value))
| CreateWorkflowInstance (bpmnProcessId : string) (variables version : Value)
| CancelWorkflowInstance (workflowInstanceKey : string)
| SetVariables (request : nat)
| ListWorkflows (bpmnProcessId : option string)
| GetWorkflow (request : nat)
| ResolveIncident (incidentKey : string).

Inductive Returned :=
| RWorker (w : ZBWorker)
| RClose (p : list ZBWorker)
| RPromise (p : Promise)
| RValue (v : Value).

(** A method that only talks to the transport leaves the client as it is. *)
Definition on_world {A} (f : A -> Returned) (m : M A) (s : ZBClient * World)
  : (Error + Returned) * (ZBClient * World) :=
  match m s.2 with
  | (inl e, w') => (inl e, (s.1, w'))
  | (inr a, w') => (inr (f a), (s.1, w'))
  end.

Definition exec (env : Env) (op : Op) (s : ZBClient * World)
  : (Error + Returned) * (ZBClient * World) :=
  match op with
  | CreateWorker id taskType taskHandler options onConnectionError =>
      match createWorker s.1 id taskType taskHandler options onConnectionError with
      | (inl e, c') => (inl e, (c', s.2))
      | (inr w, c') => (inr (RWorker w), (c', s.2))
      end
  | Close =>
      match close env s.1 with
      | (inl e, c') => (inl e, (c', s.2))
      | (inr p, c') => (inr (RClose p), (c', s.2))
      end
  | Topology => on_world RPromise (topology env) s
  | DeployWorkflow workflow redeploy =>
      on_world RPromise (deployWorkflow env workflow redeploy) s
  | GetServiceTypesFromBpmn files => on_world RValue (getServiceTypesFromBpmn env files) s
  | PublishMessage request => on_world RPromise (publishMessage env request) s
  | PublishStartMessage request => on_world RPromise (publishStartMessage env request) s
  | UpdateJobRetries request => on_world RPromise (updateJobRetries env request) s
  | FailJob request => on_world RPromise (failJob env request) s
  | CreateWorkflowInstance bpmnProcessId variables version =>
      on_world RPromise (createWorkflowInstance env bpmnProcessId variables version) s
  | CancelWorkflowInstance key => on_world RPromise (cancelWorkflowInstance env key) s
  | SetVariables request => on_world RPromise (setVariables env request) s
  | ListWorkflows bpmnProcessId => on_world RPromise (listWorkflows env bpmnProcessId) s
  | GetWorkflow request => on_world RPromise (getWorkflow env request) s
  | ResolveIncident key => on_world RPromise (resolveIncident env key) s
  end.

(** The state after a sequence of calls, whatever each of them returned. *)
Definition run (env : Env) (ops : list Op) (s : ZBClient * World)
  : ZBClient * World :=
  fold_left (fun s op => (exec env op s).2) ops s.

(** The calls sent to the broker in a trace. *)
Definition remote_calls (t : list Event) : list (Method * Value) :=
  omap (fun e => match e with Remote m v => Some (m, v) | ReadFile _ => None end) t.

(** A concrete setting to run the definitions in: two files on disk, a
    broker that has the process of the first one deployed. *)
Definition demo_env : Env := {|
  ZB_NODE_LOG_LEVEL := None;
  proto_path := "/app/proto/zeebe.proto";
  transport := fun _ m _ =>
    match m with
    | listWorkflowsSync =>
        Resolved (VObject [("workflows",
          VArray [VObject [("bpmnProcessId", VString "order-process");
                           ("version", VNumber 1)]])])
    | deployWorkflowSync =>
        Resolved (VObject [("key", VNumber 7); ("workflows", VArray [])])
    | _ => Resolved VUndefined
    end;
  readFileSync := fun p =>
    if String.eqb p "order.bpmn" then inr "order-process"
    else if String.eqb p "billing.bpmn" then inr "billing-process"
    else inl (FsError p);
  basename := fun p => p;
  getProcessId := fun text => VString text;
  getTaskTypes := fun _ => inr (VArray []);
  worker_close := fun _ => inr tt
|}.

Definition empty_world : World := {| heap := ∅; trace := [] |}.

(** The same setting with the log level of the process environment given. *)
Definition env_with_loglevel (l : option string) : Env := {|
  ZB_NODE_LOG_LEVEL := l;
  proto_path := proto_path demo_env;
  transport := transport demo_env;
  readFileSync := readFileSync demo_env;
  basename := basename demo_env;
  getProcessId := getProcessId demo_env;
  getTaskTypes := getTaskTypes demo_env;
  worker_close := worker_close demo_env
|}.

(** A store with one request object of each kind. *)
Definition demo_world : World := {|
  heap :=
    {[ 1%nat := [("elementInstanceKey", VString "2251799813685249");
                 ("variables", VObject [("status", VString "paid"); ("total", VNumber 42)])];
       2%nat := [("bpmnProcessId", VString "order-process")];
       3%nat := [("workflowKey", VString "2251799813685250")] ]};
  trace := []
|}.

(** A store whose only request names a process id and version 0. *)
Definition version_zero_world : World := {|
  heap := {[ 5%nat := [("bpmnProcessId", VString "order-process");
                       ("version", VNumber 0)] ]};
  trace := []
|}.


(** The same setting with a broker that cannot be reached. *)
Definition offline_env : Env := {|
  ZB_NODE_LOG_LEVEL := None;
  proto_path := proto_path demo_env;
  transport := fun _ _ _ => Rejected (GrpcError (VString "UNAVAILABLE"));
  readFileSync := readFileSync demo_env;
  basename := basename demo_env;
  getProcessId := getProcessId demo_env;
  getTaskTypes := getTaskTypes demo_env;
  worker_close := worker_close demo_env
|}.

(** The client [new ZBClient("localhost")] builds in that setting. *)
Definition demo_client : ZBClient := {|
  brokerAddress := "localhost:26500";
  closePromise := None;
  closing := false;
  gRPCClient := {| proto := "/app/proto/zeebe.proto";
                   package := "gateway_protocol";
                   service := "Gateway";
                   address := "localhost:26500" |};
  options := [("loglevel", VString "INFO")];
  workerCount := 0;
  workers := []
|}.

End ZBClient.

(** ** Properties *)

Import JS ConnectionFactory ZBClient.

(** *** Strings *)
Section StringFacts.

Lemma startsWith_spec (s t : string) :
  startsWith s t = true <-> exists b, s = t +:+ b.
Proof.
  revert s; induction t as [|c t IH]; intros s; simpl.
  - split; [intros _; now exists s | reflexivity].
  - destruct s as [|d s].
    + split; [discriminate | intros [b Hb]; discriminate].
    + rewrite andb_true_iff, Ascii.eqb_eq, IH. split.
      * intros [-> [b ->]]. now exists b.
      * intros [b Hb]. injection Hb as -> ->. split; [reflexivity | now exists b].
Qed.

Lemma includes_spec (s t : string) :
  includes s t = true <-> exists a b, s = a +:+ t +:+ b.
Proof.
  induction s as [|d s IH]; simpl.
  - rewrite orb_false_r, startsWith_spec. split.
    + intros [b Hb]. now exists EmptyString, b.
    + intros [a [b Hb]]. destruct a; [now exists b | discriminate].
  - rewrite orb_true_iff, startsWith_spec, IH. split.
    + intros [[b Hb] | [a [b Hb]]].
      * now exists EmptyString, b.
      * exists (String d a), b. simpl. now rewrite Hb.
    + intros [a [b Hb]]. destruct a as [|e a].
      * left. now exists b.
      * right. simpl in Hb. injection Hb as _ Hb. now exists a, b.
Qed.

Lemma indexOf_lower (s : string) (c : ascii) : -1 <= indexOf s c.
Proof.
  induction s as [|d s IH]; simpl; [lia|].
  destruct (Ascii.eqb d c); [lia|].
  destruct (Z.eqb_spec (indexOf s c) (-1)); lia.
Qed.

Lemma indexOf_absent (s : string) (c : ascii) :
  indexOf s c = -1 <-> ~ In c (list_ascii_of_string s).
Proof.
  induction s as [|d s IH]; simpl.
  - split; [intros _ [] | reflexivity].
  - destruct (Ascii.eqb_spec d c) as [->|Hne].
    + split; [discriminate | intros H; exfalso; apply H; now left].
    + pose proof (indexOf_lower s c) as Hlo.
      destruct (Z.eqb_spec (indexOf s c) (-1)) as [He|He].
      * split; [|reflexivity]. intros _ [Hd|Hin]; [congruence|].
        apply IH in He. contradiction.
      * split; [lia|]. intros Hn. exfalso. apply He, IH.
        intros Hin. apply Hn. now right.
Qed.

End StringFacts.

(** *** JSON text *)
Section Json.

Example stringify_array :
  JSON_stringify (VArray [VNumber 1; VUndefined; VBool true; VNull; VNumber (-7)])
  = VString "[1,null,true,null,-7]".
Proof. reflexivity. Qed.

Example stringify_object :
  JSON_stringify (VObject [("a", VNumber 1); ("b", VUndefined); ("c", VString "x")])
  = VString ("{" +:+ quote "a" +:+ ":1," +:+ quote "c" +:+ ":" +:+ quote "x" +:+ "}").
Proof. reflexivity. Qed.

Example stringify_escapes :
  escape (String (ascii_of_N 10) (String (ascii_of_N 34) (String (ascii_of_N 1) "z")))
  = chr 92 +:+ "n" +:+ chr 92 +:+ chr 34 +:+ chr 92 +:+ "u0001z".
Proof. reflexivity. Qed.

Lemma stringify_undefined_only (v : Value) :
  JSON_stringify v = VUndefined <-> v = VUndefined.
Proof.
  unfold JSON_stringify. destruct v; simpl; split; congruence.
Qed.

Example number_safe_integer :
  number_to_string 9007199254740991 = Some "9007199254740991".
Proof. reflexivity. Qed.

Example number_rounded_to_double :
  number_to_string 9007199254740993 = Some "9007199254740992".
Proof. reflexivity. Qed.

Example number_shortest_digits :
  number_to_string (2 ^ 60) = Some "1152921504606847000".
Proof. reflexivity. Qed.

Example number_exponent_from_1e21 :
  number_to_string (10 ^ 21) = Some "1e+21" /\
  number_to_string 999999999999999900000 = Some "999999999999999900000" /\
  number_to_string (- 2 ^ 70) = Some "-1.1805916207174113e+21".
Proof. repeat split; vm_compute; reflexivity. Qed.

Example number_largest :
  number_to_string ((2 ^ 53 - 1) * 2 ^ 971) = Some "1.7976931348623157e+308" /\
  number_to_string (2 ^ 1024) = None /\
  JSON_stringify (VArray [VNumber (2 ^ 1024)]) = VString "[null]".
Proof. repeat split; vm_compute; reflexivity. Qed.






End Json.

(** *** The connection classifier *)
Section Classifier.

(** C1.  The classifier is a function of the address alone.  An address in
    which the managed-cloud domain [zeebe.camunda.io] occurs is classified
    CAMUNDA_CLOUD with a startup time of 5000 ms; every other address is
    classified VANILLA with a startup time of 0. *)
Theorem getCharacteristics_classifies (host : string) :
  ((exists a b, host = a +:+ "zeebe.camunda.io" +:+ b) /\
   getCharacteristics host = {| _tag := CAMUNDA_CLOUD; startupTime := 5000 |})
  \/
  ((~ exists a b, host = a +:+ "zeebe.camunda.io" +:+ b) /\
   getCharacteristics host = {| _tag := VANILLA; startupTime := 0 |}).
Proof.
  unfold getCharacteristics.
  destruct (includes host "zeebe.camunda.io") eqn:E.
  - left. split; [now apply includes_spec | reflexivity].
  - right. split; [|reflexivity].
    intros H. apply includes_spec in H. congruence.
Qed.

Example getCharacteristics_cloud :
  getCharacteristics "x.zeebe.camunda.io:443"
  = {| _tag := CAMUNDA_CLOUD; startupTime := 5000 |}.
Proof. reflexivity. Qed.

Example getCharacteristics_localhost :
  getCharacteristics "localhost" = {| _tag := VANILLA; startupTime := 0 |}.
Proof. reflexivity. Qed.

End Classifier.

(** *** Construction of a client *)
Section Construction.

Lemma constructor_succeeds (env : Env) (addr : string)
  (opts : option (list (string * Value))) :
  addr <> EmptyString ->
  constructor env addr opts =
    inr {| brokerAddress :=
             if indexOf addr ":" =? -1 then addr +:+ ":26500" else addr;
           closePromise := None;
           closing := false;
           gRPCClient :=
             {| proto := proto_path env;
                package := "gateway_protocol";
                service := "Gateway";
                address :=
                  if indexOf addr ":" =? -1 then addr +:+ ":26500" else addr |};
           options :=
             set (default [] opts) "loglevel"
               (logical_or (env_value (ZB_NODE_LOG_LEVEL env))
                  (logical_or (get (default [] opts) "loglevel") (VString "INFO")));
           workerCount := 0;
           workers := [] |}.
Proof.
  intros Hne. unfold constructor.
  destruct addr as [|a addr]; [congruence | reflexivity].
Qed.

Lemma get_set_same (o : list (string * Value)) (k : string) (v : Value) :
  get (set o k v) k = v.
Proof.
  induction o as [|[k' v'] o IH]; simpl.
  - now rewrite String.eqb_refl.
  - destruct (String.eqb k' k) eqn:E; simpl.
    + now rewrite String.eqb_refl.
    + now rewrite E.
Qed.

Lemma get_set_other (o : list (string * Value)) (k k' : string) (v : Value) :
  k <> k' -> get (set o k v) k' = get o k'.
Proof.
  intros Hne. induction o as [|[k0 v0] o IH]; simpl.
  - destruct (String.eqb_spec k k'); [contradiction | reflexivity].
  - destruct (String.eqb_spec k0 k) as [->|Hk]; simpl.
    + destruct (String.eqb_spec k k'); [contradiction | reflexivity].
    + destruct (String.eqb k0 k'); [reflexivity | exact IH].
Qed.

(** An empty address is no address: the constructor rejects it before it
    looks for a port, and nothing is stored. *)
Lemma constructor_rejects_empty_address :
  ~ In ":"%char (list_ascii_of_string EmptyString) /\
  constructor demo_env EmptyString None
  = inl (JsError "Must provide a broker address string to constructor") /\
  ~ exists c, constructor demo_env EmptyString None = inr c /\
              brokerAddress c = EmptyString +:+ ":26500".
Proof.
  split; [intros [] |]. split; [reflexivity |].
  intros [c [H _]]. discriminate H.
Qed.

(** What the constructor does about the port.  For every broker address
    other than the empty string construction succeeds, and the stored
    address is the given one followed by [:26500] exactly when no colon
    occurs in it; an address in which a colon occurs is stored as given. *)
Theorem constructor_default_port (env : Env) (addr : string)
  (opts : option (list (string * Value))) :
  addr <> EmptyString ->
  exists c, constructor env addr opts = inr c /\
    ((~ In ":"%char (list_ascii_of_string addr) /\
      brokerAddress c = addr +:+ ":26500")
     \/
     (In ":"%char (list_ascii_of_string addr) /\ brokerAddress c = addr)).
Proof.
  intros Hne. eexists. split; [now apply constructor_succeeds|]. simpl.
  destruct (Z.eqb_spec (indexOf addr ":") (-1)) as [He|He].
  - left. split; [now apply indexOf_absent | reflexivity].
  - right. split; [|reflexivity].
    destruct (in_dec ascii_dec ":"%char (list_ascii_of_string addr)) as [Hin|Hn];
      [exact Hin|]. exfalso. now apply He, indexOf_absent.
Qed.

Lemma constructor_default_port_witness :
  exists c, constructor demo_env "localhost" None = inr c /\
    ((~ In ":"%char (list_ascii_of_string "localhost") /\
      brokerAddress c = "localhost" +:+ ":26500")
     \/
     (In ":"%char (list_ascii_of_string "localhost") /\ brokerAddress c = "localhost")).
Proof.
  apply (constructor_default_port demo_env "localhost" None). discriminate.
Defined.

(** C6.  The default port is not appended to every address that carries
    no port: the constructor takes any colon for the start of a port.  The
    IPv6 hosts [::1] and [[::1]] and the host [localhost:] carry no port,
    and each is stored, and handed to the gRPC client, as it was given. *)
Theorem constructor_colon_without_port (env : Env)
  (opts : option (list (string * Value))) :
  (exists c, constructor env "::1" opts = inr c /\
             brokerAddress c = "::1" /\ address (gRPCClient c) = "::1") /\
  (exists c, constructor env "[::1]" opts = inr c /\
             brokerAddress c = "[::1]" /\ address (gRPCClient c) = "[::1]") /\
  (exists c, constructor env "localhost:" opts = inr c /\
             brokerAddress c = "localhost:" /\ address (gRPCClient c) = "localhost:").
Proof.
  repeat split; eexists; (split; [apply constructor_succeeds; discriminate|]);
    split; reflexivity.
Qed.

Example constructor_localhost :
  exists c, constructor demo_env "localhost" None = inr c /\
            brokerAddress c = "localhost:26500".
Proof. eexists. split; reflexivity. Qed.

Example constructor_cloud_address :
  exists c, constructor demo_env "x.zeebe.camunda.io:443" None = inr c /\
            brokerAddress c = "x.zeebe.camunda.io:443".
Proof. eexists. split; reflexivity. Qed.

(** C7, as stated, fails when the environment variable is set to the empty
    string: it is set, yet the constructor option is the resolved level. *)
Lemma loglevel_empty_override_ignored :
  ZB_NODE_LOG_LEVEL (env_with_loglevel (Some EmptyString)) = Some EmptyString /\
  exists c,
    constructor (env_with_loglevel (Some EmptyString)) "localhost"
      (Some [("loglevel", VString "DEBUG")]) = inr c /\
    get (options c) "loglevel" = VString "DEBUG" /\
    get (options c) "loglevel" <> VString EmptyString.
Proof.
  split; [reflexivity|]. eexists. split; [reflexivity|].
  split; [reflexivity | discriminate].
Qed.

(** C7, amended.  For every non-empty broker address construction succeeds
    and the resolved log level is the first usable one of: the environment
    variable, when it is set to a non-empty string; the [loglevel] of the
    constructor options, when it is truthy (for a string: non-empty);
    the default [INFO]. *)
Theorem constructor_loglevel (env : Env) (addr : string)
  (opts : option (list (string * Value))) :
  addr <> EmptyString ->
  exists c, constructor env addr opts = inr c /\
    get (options c) "loglevel" =
      match ZB_NODE_LOG_LEVEL env with
      | Some (String a l) => VString (String a l)
      | _ =>
          if truthy (get (default [] opts) "loglevel")
          then get (default [] opts) "loglevel"
          else VString "INFO"
      end.
Proof.
  intros Hne. eexists. split; [now apply constructor_succeeds|]. simpl.
  rewrite get_set_same.
  destruct (ZB_NODE_LOG_LEVEL env) as [[|a l]|]; reflexivity.
Qed.

Lemma constructor_loglevel_witness :
  exists c,
    constructor (env_with_loglevel (Some "DEBUG")) "localhost"
      (Some [("loglevel", VString "ERROR")]) = inr c /\
    get (options c) "loglevel" = VString "DEBUG".
Proof.
  apply (constructor_loglevel (env_with_loglevel (Some "DEBUG")) "localhost"
           (Some [("loglevel", VString "ERROR")])).
  discriminate.
Defined.

Example loglevel_from_options :
  exists c,
    constructor demo_env "localhost" (Some [("loglevel", VString "ERROR")]) = inr c /\
    get (options c) "loglevel" = VString "ERROR".
Proof. eexists. split; reflexivity. Qed.

Example loglevel_default :
  exists c, constructor demo_env "localhost" None = inr c /\
            get (options c) "loglevel" = VString "INFO".
Proof. eexists. split; reflexivity. Qed.

End Construction.

(** *** Worker creation and closing *)
Section Lifecycle.

Variable env : Env.

Lemma on_world_client {A} (f : A -> Returned) (m : M A) (s : ZBClient * World) :
  (on_world f m s).2.1 = s.1.
Proof. unfold on_world. destruct (m s.2) as [[e|a] w']; reflexivity. Qed.

(** Once a client is closing, no method takes it out of that state. *)
Lemma exec_keeps_closing (op : Op) (s : ZBClient * World) :
  closing s.1 = true -> closing (exec env op s).2.1 = true.
Proof.
  intros Hc.
  destruct op; simpl; try exact Hc; try (rewrite on_world_client; exact Hc).
  - unfold createWorker. rewrite Hc. exact Hc.
  - unfold close. destruct (closePromise s.1); simpl; [exact Hc|].
    destruct (map_err _ (workers s.1)); reflexivity.
Qed.

Lemma run_keeps_closing (ops : list Op) (s : ZBClient * World) :
  closing s.1 = true -> closing (run env ops s).1 = true.
Proof.
  revert s. induction ops as [|op ops IH]; intros s Hc; simpl; [exact Hc|].
  apply IH. now apply exec_keeps_closing.
Qed.

Lemma exec_closing_recorded (op : Op) (s : ZBClient * World) :
  closing_recorded s.1 -> closing_recorded (exec env op s).2.1.
Proof.
  intros Hi.
  destruct op; simpl; try exact Hi; try (rewrite on_world_client; exact Hi).
  - unfold createWorker. destruct (closing s.1) eqn:E; simpl; [exact Hi|].
    destruct Hi as [Hi|Hi]; [now left | congruence].
  - unfold close. destruct (closePromise s.1) eqn:E; simpl; [exact Hi|].
    destruct (map_err _ (workers s.1)); now right.
Qed.

Lemma run_closing_recorded (ops : list Op) (s : ZBClient * World) :
  closing_recorded s.1 -> closing_recorded (run env ops s).1.
Proof.
  revert s. induction ops as [|op ops IH]; intros s Hi; simpl; [exact Hi|].
  apply IH. now apply exec_closing_recorded.
Qed.

Lemma close_sets_closing (s : ZBClient * World) :
  closing_recorded s.1 -> closing (exec env Close s).2.1 = true.
Proof.
  intros Hi. simpl. unfold close.
  destruct (closePromise s.1) eqn:E; simpl.
  - destruct Hi as [Hi|Hi]; [congruence | exact Hi].
  - destruct (map_err _ (workers s.1)); reflexivity.
Qed.

Lemma run_app (ops1 ops2 : list Op) (s : ZBClient * World) :
  run env (ops1 ++ ops2) s = run env ops2 (run env ops1 s).
Proof. unfold run. apply fold_left_app. Qed.

Lemma constructor_closing_recorded (addr : string)
  (opts : option (list (string * Value))) (c : ZBClient) :
  constructor env addr opts = inr c -> closing_recorded c.
Proof.
  unfold constructor. destruct (negb (truthy (VString addr))); [discriminate|].
  intros H. injection H as <-. now left.
Qed.

(** C8.  Take a client as the constructor built it and any sequence of
    calls of its public methods in which [close()] occurs.  Every
    [createWorker] call made after that sequence throws, synchronously, the
    error "Client is closing. No worker creation allowed!", and leaves the
    client, its list of workers included, exactly as it was. *)
Theorem createWorker_after_close (addr : string)
  (opts : option (list (string * Value))) (c : ZBClient) (w : World)
  (before after : list Op) (id taskType : string) (taskHandler : nat)
  (options : option (list (string * Value))) (onConnectionError : option nat) :
  constructor env addr opts = inr c ->
  let s := run env (before ++ Close :: after) (c, w) in
  createWorker s.1 id taskType taskHandler options onConnectionError
  = (inl (JsError "Client is closing. No worker creation allowed!"), s.1)
  /\ exec env (CreateWorker id taskType taskHandler options onConnectionError) s
     = (inl (JsError "Client is closing. No worker creation allowed!"), s)
  /\ workers (exec env (CreateWorker id taskType taskHandler options
                          onConnectionError) s).2.1 = workers s.1.
Proof.
  intros Hnew s.
  assert (Hc : closing s.1 = true).
  { subst s. rewrite run_app. change (Close :: after) with (app [Close] after).
    rewrite run_app. apply run_keeps_closing. simpl.
    apply (close_sets_closing (run env before (c, w))).
    apply run_closing_recorded. simpl.
    now apply constructor_closing_recorded with addr opts. }
  assert (Hw : createWorker s.1 id taskType taskHandler options onConnectionError
               = (inl (JsError "Client is closing. No worker creation allowed!"), s.1)).
  { unfold createWorker. now rewrite Hc. }
  split; [exact Hw|]. simpl. rewrite Hw. simpl.
  split; [now destruct s | reflexivity].
Qed.

End Lifecycle.

(** A worker created, the client closed, further traffic, a second close. *)
Lemma createWorker_after_close_witness :
  exists c, constructor demo_env "localhost" None = inr c /\
    let s := run demo_env
               ([CreateWorker "w1" "payment" 0%nat None None] ++
                Close :: [Topology; Close]) (c, empty_world) in
    createWorker s.1 "w2" "shipping" 1%nat None None
    = (inl (JsError "Client is closing. No worker creation allowed!"), s.1)
    /\ exec demo_env (CreateWorker "w2" "shipping" 1%nat None None) s
       = (inl (JsError "Client is closing. No worker creation allowed!"), s)
    /\ workers (exec demo_env (CreateWorker "w2" "shipping" 1%nat None None) s).2.1
       = workers s.1.
Proof.
  eexists. split; [reflexivity|].
  eapply (createWorker_after_close demo_env "localhost" None _ empty_world
            [CreateWorker "w1" "payment" 0%nat None None] [Topology; Close]).
  reflexivity.
Defined.

Example createWorker_while_open :
  exists c w c',
    constructor demo_env "localhost" None = inr c /\
    createWorker c "w1" "payment" 0%nat None None = (inr w, c') /\
    workers c' = [w] /\ workerCount c' = 1%nat /\ w_idColor w = Some yellow.
Proof. do 3 eexists. repeat split. Qed.

(** *** Requests: variables and versions *)
Section Requests.

Variable env : Env.

Lemma remote_calls_snoc (t : list Event) (m : Method) (v : Value) :
  remote_calls (t ++ [Remote m v]) = remote_calls t ++ [(m, v)].
Proof. unfold remote_calls. now rewrite omap_app. Qed.

Lemma typeof_object_serializes (v : Value) :
  typeof v = "object" -> exists s, JSON_stringify v = VString s.
Proof.
  unfold JSON_stringify. destruct v; simpl; try discriminate; intros _; eauto.
Qed.

(** What [setVariables] does to an object in the store. *)
Lemma setVariables_run (w : World) (r : nat) (o : list (string * Value)) :
  heap w !! r = Some o ->
  let sent :=
    if String.eqb (typeof (get o "variables")) "object"
    then set o "variables" (JSON_stringify (get o "variables"))
    else o in
  setVariables env r w
  = (inr (transport env (trace w) setVariablesSync (VObject sent)),
     {| heap := if String.eqb (typeof (get o "variables")) "object"
                then <[r := sent]> (heap w) else heap w;
        trace := trace w ++ [Remote setVariablesSync (VObject sent)] |}).
Proof.
  intros Hr. unfold setVariables, bind, load, assign, call, ret.
  rewrite Hr.
  destruct (String.eqb (typeof (get o "variables")) "object"); simpl.
  - rewrite Hr. simpl. rewrite lookup_insert_eq. reflexivity.
  - rewrite Hr. reflexivity.
Qed.

(** What [getWorkflow] does to an object in the store. *)
Lemma getWorkflow_run (w : World) (r : nat) (o : list (string * Value)) :
  heap w !! r = Some o ->
  let has := match get o "bpmnProcessId" with VUndefined => false | _ => true end in
  let sent :=
    if has then set o "version" (logical_or (get o "version") (VNumber (-1))) else o in
  getWorkflow env r w
  = (inr (transport env (trace w) getWorkflowSync (VObject sent)),
     {| heap := if has then <[r := sent]> (heap w) else heap w;
        trace := trace w ++ [Remote getWorkflowSync (VObject sent)] |}).
Proof.
  intros Hr. unfold getWorkflow, hasBpmnProcessId, bind, load, assign, call, ret.
  rewrite Hr.
  destruct (get o "bpmnProcessId"); simpl; rewrite ?Hr; simpl;
    rewrite ?lookup_insert_eq; reflexivity.
Qed.

Lemma createWorkflowInstance_run (w : World) (bpmnProcessId : string)
  (variables version : Value) :
  createWorkflowInstance env bpmnProcessId variables version w
  = let sent :=
      [("bpmnProcessId", VString bpmnProcessId);
       ("variables", JSON_stringify variables);
       ("version", logical_or version (VNumber (-1)))] in
    (inr (transport env (trace w) createWorkflowInstanceSync (VObject sent)),
     {| heap := heap w;
        trace := trace w ++ [Remote createWorkflowInstanceSync (VObject sent)] |}).
Proof. reflexivity. Qed.


(** C5.  A lookup request that names a process id and leaves the version
    unset is sent with version -1; one that was given a version other than
    0 keeps it.  A request without a process id, that is one identified by
    key, is sent exactly as given and is not touched.  The same default is
    applied by [createWorkflowInstance], which always has a process id. *)
Theorem version_defaulted_for_process_id (w : World) (r : nat)
  (o : list (string * Value)) :
  heap w !! r = Some o ->
  (exists sent,
     remote_calls (trace (getWorkflow env r w).2)
     = remote_calls (trace w) ++ [(getWorkflowSync, VObject sent)] /\
     (get o "bpmnProcessId" <> VUndefined ->
        (get o "version" = VUndefined -> get sent "version" = VNumber (-1)) /\
        (forall n, n <> 0 -> get o "version" = VNumber n ->
                   get sent "version" = VNumber n)) /\
     (get o "bpmnProcessId" = VUndefined ->
        sent = o /\ heap (getWorkflow env r w).2 = heap w)) /\
  (forall bpmnProcessId variables, exists sent,
     remote_calls
       (trace (createWorkflowInstance env bpmnProcessId variables VUndefined w).2)
     = remote_calls (trace w) ++ [(createWorkflowInstanceSync, VObject sent)] /\
     get sent "bpmnProcessId" = VString bpmnProcessId /\
     get sent "version" = VNumber (-1)).
Proof.
  intros Hr. split.
  - rewrite (getWorkflow_run w r o Hr). simpl.
    eexists. split; [apply remote_calls_snoc|]. split.
    + intros Hpid.
      destruct (get o "bpmnProcessId"); try contradiction;
        (split; [intros Hv; rewrite Hv | intros k Hk Hv; rewrite Hv];
         rewrite get_set_same; unfold logical_or; simpl; try reflexivity;
         destruct (Z.eqb_spec k 0); [contradiction | reflexivity]).
    + intros Hpid. rewrite Hpid. now split.
  - intros pid vars. rewrite createWorkflowInstance_run. simpl.
    eexists. split; [apply remote_calls_snoc|]. split; reflexivity.
Qed.


(** C10.  [createWorkflowInstance] called with version 0 sends version -1:
    it does exactly what it does when no version is given. *)
Theorem createWorkflowInstance_version_zero (w : World)
  (bpmnProcessId : string) (variables : Value) :
  createWorkflowInstance env bpmnProcessId variables (VNumber 0) w
  = createWorkflowInstance env bpmnProcessId variables VUndefined w /\
  exists sent,
    remote_calls
      (trace (createWorkflowInstance env bpmnProcessId variables (VNumber 0) w).2)
    = remote_calls (trace w) ++ [(createWorkflowInstanceSync, VObject sent)] /\
    get sent "version" = VNumber (-1).
Proof.
  split; [reflexivity|]. rewrite createWorkflowInstance_run. simpl.
  eexists. split; [apply remote_calls_snoc | reflexivity].
Qed.

End Requests.


Lemma version_defaulted_for_process_id_witness :
  exists sent,
    remote_calls (trace (getWorkflow demo_env 2%nat demo_world).2)
    = remote_calls (trace demo_world) ++ [(getWorkflowSync, VObject sent)] /\
    get sent "version" = VNumber (-1).
Proof.
  destruct (version_defaulted_for_process_id demo_env demo_world 2%nat
              [("bpmnProcessId", VString "order-process")] eq_refl)
    as [[sent [Hcalls [Hpid _]]] _].
  exists sent. split; [exact Hcalls|].
  assert (Hset : get [("bpmnProcessId", VString "order-process")] "bpmnProcessId"
                 <> VUndefined) by discriminate.
  exact (proj1 (Hpid Hset) eq_refl).
Defined.


Example getWorkflow_by_key_untouched :
  (getWorkflow demo_env 3%nat demo_world).2
  = {| heap := heap demo_world;
       trace := [Remote getWorkflowSync
                   (VObject [("workflowKey", VString "2251799813685250")])] |}.
Proof. reflexivity. Qed.

(** *** Deployment *)
Section Deploy.

Variable env : Env.

Lemma extends_ret {A} (a : A) : extends (ret a).
Proof. intros w. exists []. simpl. now rewrite app_nil_r. Qed.

Lemma extends_throw {A} (e : Error) : extends (@throw A e).
Proof. intros w. exists []. simpl. now rewrite app_nil_r. Qed.

Lemma extends_lift {A} (r : Error + A) : extends (lift r).
Proof. destruct r; [apply extends_throw | apply extends_ret]. Qed.

Lemma extends_await (p : Promise) : extends (await p).
Proof. destruct p; [apply extends_ret | apply extends_throw]. Qed.

Lemma extends_call (m : Method) (v : Value) : extends (call env m v).
Proof. intros w. now exists [Remote m v]. Qed.

Lemma extends_readFile (path : string) : extends (readFile env path).
Proof. intros w. now exists [ReadFile path]. Qed.

Lemma extends_bind {A B} (m : M A) (k : A -> M B) :
  extends m -> (forall a, extends (k a)) -> extends (bind m k).
Proof.
  intros Hm Hk w. unfold bind. destruct (Hm w) as [l1 H1].
  destruct (m w) as [[e|a] w1]; simpl in *.
  - now exists l1.
  - destruct (Hk a w1) as [l2 H2]. exists (l1 ++ l2).
    now rewrite H2, H1, app_assoc.
Qed.

Lemma extends_mapM {A B} (f : A -> M B) (l : list A) :
  (forall a, extends (f a)) -> extends (mapM f l).
Proof.
  intros Hf. induction l as [|a l IH]; simpl.
  - apply extends_ret.
  - apply extends_bind; [apply Hf|]. intros b.
    apply extends_bind; [exact IH|]. intros bs. apply extends_ret.
Qed.

Lemma starts_with_call (m : Method) (v : Value) :
  starts_with (Remote m v) (call env m v).
Proof. intros w. now exists []. Qed.

Lemma starts_with_bind {A B} (e : Event) (m : M A) (k : A -> M B) :
  starts_with e m -> (forall a, extends (k a)) -> starts_with e (bind m k).
Proof.
  intros Hm Hk w. unfold bind. destruct (Hm w) as [l1 H1].
  destruct (m w) as [[err|a] w1]; simpl in *.
  - now exists l1.
  - destruct (Hk a w1) as [l2 H2]. exists (l1 ++ l2).
    rewrite H2, H1, <- app_assoc. reflexivity.
Qed.

Lemma starts_with_async (e : Event) (m : M Value) :
  starts_with e m -> starts_with e (async m).
Proof.
  intros Hm w. unfold async. destruct (Hm w) as [l H].
  destruct (m w) as [[err|a] w1]; now exists l.
Qed.

(** With [redeploy] false the listing is the first thing that happens,
    whatever the broker answers and whatever is on disk. *)
Lemma deployWorkflow_lists_first (workflow : string + list string) :
  starts_with (Remote listing.1 listing.2) (deployWorkflow env workflow (Some false)).
Proof.
  unfold deployWorkflow. simpl. apply starts_with_async.
  apply starts_with_bind.
  - apply starts_with_bind; [apply starts_with_call|]. intros p.
    apply extends_bind; [apply extends_await|]. intros response.
    apply extends_lift.
  - intros ids. apply extends_bind.
    + apply extends_mapM. intros wf.
      apply extends_bind; [apply extends_readFile|]. intros d. apply extends_ret.
    + intros mapped.
      destruct (0 <? length (List.filter (not_deployed env ids) mapped))%nat.
      * apply extends_bind; [apply extends_call | apply extends_await].
      * apply extends_ret.
Qed.

(** Reading the files, when each of them can be read. *)
Lemma read_all (paths contents : list string) (w : World) :
  Forall2 (fun p d => readFileSync env p = inr d) paths contents ->
  mapM (fun wf =>
          definition <- readFile env wf ;;
          ret (workflowRequest env wf definition)) paths w
  = (inr (zip_with (workflowRequest env) paths contents),
     {| heap := heap w; trace := trace w ++ map ReadFile paths |}).
Proof.
  intros H. revert w. induction H as [|p d paths contents Hp _ IH]; intros w.
  - simpl. unfold ret. destruct w. simpl. now rewrite app_nil_r.
  - simpl. unfold bind at 1. unfold bind at 1. unfold readFile at 1.
    rewrite Hp. unfold ret at 1. unfold bind at 1. rewrite IH. simpl.
    unfold ret. now rewrite <- app_assoc.
Qed.

(** The whole of [deployWorkflow] with [redeploy] false, when the listing
    is answered and every file can be read. *)
Lemma deployWorkflow_run (w : World) (workflow : string + list string)
  (response : Value) (ids : list Value) (contents : list string) :
  transport env (trace w) listing.1 listing.2 = Resolved response ->
  bpmnProcessIds response = inr ids ->
  Forall2 (fun p d => readFileSync env p = inr d) (paths_of workflow) contents ->
  let kept :=
    List.filter (not_deployed env ids)
      (zip_with (workflowRequest env) (paths_of workflow) contents) in
  let t := trace w ++ Remote listing.1 listing.2 :: map ReadFile (paths_of workflow) in
  deployWorkflow env workflow (Some false) w
  = match kept with
    | [] => (inr (Resolved nothing_deployed), {| heap := heap w; trace := t |})
    | _ :: _ =>
        (inr (transport env t (deployment kept).1 (deployment kept).2),
         {| heap := heap w;
            trace := t ++ [Remote (deployment kept).1 (deployment kept).2] |})
    end.
Proof.
  intros Hlist Hids Hread kept t.
  unfold deployWorkflow, async. simpl.
  unfold bind at 1. unfold bind at 1. unfold bind at 1.
  unfold listWorkflows, call at 1. simpl in Hlist. simpl. rewrite Hlist.
  unfold bind at 1. simpl. rewrite Hids. simpl.
  rewrite (read_all (paths_of workflow) contents _ Hread). simpl.
  fold kept. rewrite <- app_assoc. simpl. fold t.
  destruct kept as [|k kept']; simpl; [reflexivity|].
  unfold bind, call. simpl. unfold t.
  destruct (transport env _ deployWorkflowSync _); reflexivity.
Qed.

Lemma remote_calls_app (a b : list Event) :
  remote_calls (a ++ b) = remote_calls a ++ remote_calls b.
Proof. unfold remote_calls. apply omap_app. Qed.

Lemma remote_calls_ReadFile (paths : list string) :
  remote_calls (map ReadFile paths) = [].
Proof. induction paths as [|p paths IH]; [reflexivity | exact IH]. Qed.

(** The calls sent by [deployWorkflow] with [redeploy] false, and its
    result, under the hypotheses of [deployWorkflow_run]. *)
Lemma deployWorkflow_calls (w : World) (workflow : string + list string)
  (response : Value) (ids : list Value) (contents : list string) :
  transport env (trace w) listing.1 listing.2 = Resolved response ->
  bpmnProcessIds response = inr ids ->
  Forall2 (fun p d => readFileSync env p = inr d) (paths_of workflow) contents ->
  let kept :=
    List.filter (not_deployed env ids)
      (zip_with (workflowRequest env) (paths_of workflow) contents) in
  let r := deployWorkflow env workflow (Some false) w in
  heap r.2 = heap w /\
  (kept = [] ->
     r.1 = inr (Resolved nothing_deployed) /\
     remote_calls (trace r.2) = remote_calls (trace w) ++ [listing]) /\
  (kept <> [] ->
     remote_calls (trace r.2) = remote_calls (trace w) ++ [listing; deployment kept]).
Proof.
  intros Hlist Hids Hread kept r. subst r.
  rewrite (deployWorkflow_run w workflow response ids contents Hlist Hids Hread).
  fold kept. destruct kept as [|k kept']; simpl.
  - split; [reflexivity|]. split; [|congruence]. intros _. split; [reflexivity|].
    rewrite remote_calls_app. simpl. now rewrite remote_calls_ReadFile.
  - split; [reflexivity|]. split; [discriminate|]. intros _.
    rewrite !remote_calls_app. simpl.
    rewrite remote_calls_ReadFile. simpl. now rewrite <- app_assoc.
Qed.

(** C2.  With [redeploy] false, [deployWorkflow] begins by listing the
    deployed workflows.  When the listing is answered and the files can be
    read, the files kept are exactly those whose process id is not among
    the ids listed; if none is kept the result is the object
    [{key: -1, workflows: []}] and the listing is the only call sent, and
    otherwise one deploy call follows, carrying the files kept, each with
    its definition, its name and type 1. *)
Theorem deployWorkflow_skips_deployed (w : World) (workflow : string + list string) :
  let r := deployWorkflow env workflow (Some false) w in
  (exists later,
     trace r.2
     = trace w ++ Remote listWorkflowsSync (VObject [("bpmnProcessId", VUndefined)])
                  :: later) /\
  (forall response ids contents,
     transport env (trace w) listWorkflowsSync (VObject [("bpmnProcessId", VUndefined)])
     = Resolved response ->
     bpmnProcessIds response = inr ids ->
     Forall2 (fun p d => readFileSync env p = inr d) (paths_of workflow) contents ->
     let files := zip_with (workflowRequest env) (paths_of workflow) contents in
     let kept := List.filter (not_deployed env ids) files in
     (forall wfr,
        In wfr kept <->
        In wfr files /\
        array_includes ids (getProcessId env (definition wfr)) = false) /\
     (kept = [] ->
        r.1 = inr (Resolved (VObject [("key", VNumber (-1)); ("workflows", VArray [])])) /\
        remote_calls (trace r.2)
        = remote_calls (trace w) ++ [(listWorkflowsSync, VObject [("bpmnProcessId", VUndefined)])]) /\
     (kept <> [] ->
        remote_calls (trace r.2)
        = remote_calls (trace w)
          ++ [(listWorkflowsSync, VObject [("bpmnProcessId", VUndefined)]);
              (deployWorkflowSync,
            VObject [("workflows",
              VArray (map (fun f => VObject [("definition", VString (definition f));
                                             ("name", VString (name f));
                                             ("type", VNumber (type f))]) kept))])])).
Proof.
  intros r. split; [apply deployWorkflow_lists_first|].
  intros response ids contents Hlist Hids Hread files kept. split.
  - intros wfr. unfold kept. rewrite List.filter_In. unfold not_deployed.
    now rewrite negb_true_iff.
  - exact (proj2 (deployWorkflow_calls w workflow response ids contents
                    Hlist Hids Hread)).
Qed.

(** C3, amended.  When the listing is answered and every file can be read
    and has a process id that is among the ids listed, [deployWorkflow]
    with [redeploy] false resolves to the object [{key: -1, workflows: []}],
    and the only call sent to the broker is the listing: no deploy call is
    made. *)
Theorem deployWorkflow_all_deployed (w : World) (workflow : string + list string)
  (response : Value) (ids : list Value) :
  transport env (trace w) listWorkflowsSync (VObject [("bpmnProcessId", VUndefined)])
  = Resolved response ->
  bpmnProcessIds response = inr ids ->
  Forall (fun p => exists d, readFileSync env p = inr d /\
                             array_includes ids (getProcessId env d) = true)
         (paths_of workflow) ->
  let r := deployWorkflow env workflow (Some false) w in
  r.1 = inr (Resolved (VObject [("key", VNumber (-1)); ("workflows", VArray [])])) /\
  remote_calls (trace r.2)
  = remote_calls (trace w) ++ [(listWorkflowsSync, VObject [("bpmnProcessId", VUndefined)])] /\
  heap r.2 = heap w.
Proof.
  intros Hlist Hids Hall r.
  assert (Hc : exists contents,
             Forall2 (fun p d => readFileSync env p = inr d) (paths_of workflow) contents /\
             List.filter (not_deployed env ids)
               (zip_with (workflowRequest env) (paths_of workflow) contents) = []).
  { induction Hall as [|p paths [d [Hd Hin]] _ [contents [IH1 IH2]]].
    - exists []. split; [constructor | reflexivity].
    - exists (d :: contents). split; [now constructor|]. simpl.
      unfold not_deployed at 1. simpl. now rewrite Hin. }
  destruct Hc as [contents [Hread Hkept]].
  destruct (deployWorkflow_calls w workflow response ids contents Hlist Hids Hread)
    as [Hheap [Hnone _]].
  destruct (Hnone Hkept) as [Hres Hcalls]. repeat split; assumption.
Qed.

End Deploy.

(** Two files, the process of the first one deployed: the second is sent. *)
Lemma deployWorkflow_skips_deployed_witness :
  let r := deployWorkflow demo_env (inr ["order.bpmn"; "billing.bpmn"]) (Some false)
             empty_world in
  remote_calls (trace r.2)
  = [(listWorkflowsSync, VObject [("bpmnProcessId", VUndefined)]);
     (deployWorkflowSync,
      VObject [("workflows",
        VArray [VObject [("definition", VString "billing-process");
                         ("name", VString "billing.bpmn");
                         ("type", VNumber 1)]])])].
Proof.
  intros r.
  destruct (deployWorkflow_skips_deployed demo_env empty_world
              (inr ["order.bpmn"; "billing.bpmn"])) as [_ H].
  destruct (H (VObject [("workflows",
                VArray [VObject [("bpmnProcessId", VString "order-process");
                                 ("version", VNumber 1)]])])
              [VString "order-process"] ["order-process"; "billing-process"]
              eq_refl eq_refl) as [_ [_ Hsome]].
  - repeat constructor.
  - apply Hsome. discriminate.
Defined.

(** C3, as stated, fails: the only file has its process deployed, the
    result is the object [{key: -1, workflows: []}], and one call was sent
    all the same, the listing. *)
Lemma listing_sent_when_all_deployed :
  let r := deployWorkflow demo_env (inr ["order.bpmn"]) (Some false) empty_world in
  readFileSync demo_env "order.bpmn" = inr "order-process" /\
  array_includes [VString "order-process"] (getProcessId demo_env "order-process") = true /\
  r.1 = inr (Resolved (VObject [("key", VNumber (-1)); ("workflows", VArray [])])) /\
  remote_calls (trace r.2)
  = [(listWorkflowsSync, VObject [("bpmnProcessId", VUndefined)])] /\
  remote_calls (trace r.2) <> [].
Proof. repeat split. discriminate. Qed.

Lemma deployWorkflow_all_deployed_witness :
  let r := deployWorkflow demo_env (inr ["order.bpmn"]) (Some false) empty_world in
  r.1 = inr (Resolved (VObject [("key", VNumber (-1)); ("workflows", VArray [])])) /\
  remote_calls (trace r.2)
  = remote_calls (trace empty_world)
    ++ [(listWorkflowsSync, VObject [("bpmnProcessId", VUndefined)])] /\
  heap r.2 = heap empty_world.
Proof.
  apply (deployWorkflow_all_deployed demo_env empty_world (inr ["order.bpmn"])
           (VObject [("workflows",
              VArray [VObject [("bpmnProcessId", VString "order-process");
                               ("version", VNumber 1)]])])
           [VString "order-process"] eq_refl eq_refl).
  constructor; [|constructor].
  exists "order-process". split; reflexivity.
Defined.

Example deployWorkflow_redeploy_default :
  remote_calls (trace (deployWorkflow demo_env (inl "order.bpmn") None empty_world).2)
  = [deployment [workflowRequest demo_env "order.bpmn" "order-process"]].
Proof. reflexivity. Qed.

(** ** Further properties *)

(** *** Classification and the stored address *)
Section ClassifierMore.

Lemma string_app_assoc (a b c : string) : (a +:+ b) +:+ c = a +:+ (b +:+ c).
Proof.
  induction a as [|x a IH]; [reflexivity|].
  change (String x ((a +:+ b) +:+ c) = String x (a +:+ b +:+ c)).
  now rewrite IH.
Qed.

Lemma startsWith_before_colon (p s t : string) :
  ~ In ":"%char (list_ascii_of_string p) ->
  startsWith (s +:+ String ":" t) p = startsWith s p.
Proof.
  revert s. induction p as [|c p IH]; intros s Hp; [reflexivity|].
  simpl in Hp. destruct s as [|d s]; simpl.
  - destruct (Ascii.eqb_spec c ":"%char) as [->|Hne]; [|reflexivity].
    exfalso. apply Hp. now left.
  - rewrite IH; [reflexivity|]. intros Hin. apply Hp. now right.
Qed.

Lemma includes_before_colon (p s t : string) :
  ~ In ":"%char (list_ascii_of_string p) ->
  includes (String ":" t) p = false ->
  includes (s +:+ String ":" t) p = includes s p.
Proof.
  intros Hp Ht. induction s as [|d s IH].
  - change (EmptyString +:+ String ":" t) with (String ":" t). rewrite Ht. simpl.
    destruct p as [|c p]; [discriminate Ht | reflexivity].
  - change (String d s +:+ String ":" t) with (String d (s +:+ String ":" t)).
    cbn [includes]. rewrite IH.
    change (String d (s +:+ String ":" t)) with (String d s +:+ String ":" t).
    now rewrite startsWith_before_colon.
Qed.

Lemma constructor_inv (env : Env) (addr : string)
  (opts : option (list (string * Value))) (c : ZBClient) :
  constructor env addr opts = inr c ->
  addr <> EmptyString /\
  brokerAddress c = (if indexOf addr ":" =? -1 then addr +:+ ":26500" else addr) /\
  address (gRPCClient c) = brokerAddress c /\
  options c = set (default [] opts) "loglevel"
                (logical_or (env_value (ZB_NODE_LOG_LEVEL env))
                   (logical_or (get (default [] opts) "loglevel") (VString "INFO"))) /\
  closing c = false /\ closePromise c = None /\
  workers c = [] /\ workerCount c = 0%nat.
Proof.
  intros H. destruct addr as [|a addr]; [discriminate H|].
  split; [discriminate|].
  rewrite constructor_succeeds in H by discriminate.
  injection H as <-. simpl. repeat split.
Qed.

(** X1.  A host in which the managed-cloud domain occurs stays classified
    CAMUNDA_CLOUD whatever is put before or after it (a scheme, a port, a
    path). *)
Theorem getCharacteristics_extension (host before after : string) :
  _tag (getCharacteristics host) = CAMUNDA_CLOUD ->
  getCharacteristics (before +:+ host +:+ after)
  = {| _tag := CAMUNDA_CLOUD; startupTime := 5000 |}.
Proof.
  unfold getCharacteristics.
  destruct (includes host "zeebe.camunda.io") eqn:E; [|discriminate].
  intros _. apply includes_spec in E. destruct E as [a [b ->]].
  assert (H : includes (before +:+ (a +:+ "zeebe.camunda.io" +:+ b) +:+ after)
                "zeebe.camunda.io" = true).
  { apply includes_spec. exists (before +:+ a), (b +:+ after).
    now rewrite !string_app_assoc. }
  now rewrite H.
Qed.

Lemma getCharacteristics_extension_witness :
  getCharacteristics ("grpcs://" +:+ "x.zeebe.camunda.io" +:+ ":443")
  = {| _tag := CAMUNDA_CLOUD; startupTime := 5000 |}.
Proof.
  apply (getCharacteristics_extension "x.zeebe.camunda.io" "grpcs://" ":443").
  reflexivity.
Defined.

(** X2.  The address a client stores is classified exactly as the address
    it was given: appending the default port neither makes a host a cloud
    host nor stops it being one. *)
Theorem classification_survives_default_port (env : Env) (addr : string)
  (opts : option (list (string * Value))) (c : ZBClient) :
  constructor env addr opts = inr c ->
  getCharacteristics (brokerAddress c) = getCharacteristics addr.
Proof.
  intros H. apply constructor_inv in H. destruct H as [_ [-> _]].
  destruct (indexOf addr ":" =? -1); [|reflexivity].
  unfold getCharacteristics.
  change ":26500" with (String ":" "26500").
  rewrite includes_before_colon; [reflexivity | | reflexivity].
  simpl. intros H. repeat (destruct H as [H|H]; [discriminate H|]). exact H.
Qed.

Lemma classification_survives_default_port_witness :
  exists c, constructor demo_env "x.zeebe.camunda.io" None = inr c /\
            brokerAddress c = "x.zeebe.camunda.io:26500" /\
            getCharacteristics (brokerAddress c)
            = getCharacteristics "x.zeebe.camunda.io".
Proof.
  eexists. split; [reflexivity|]. split; [reflexivity|].
  apply (classification_survives_default_port demo_env "x.zeebe.camunda.io" None).
  reflexivity.
Defined.

End ClassifierMore.

(** *** What construction guarantees *)
Section ConstructionMore.

Variable env : Env.

Lemma In_string_app (c : ascii) (a b : string) :
  In c (list_ascii_of_string (a +:+ b)) <->
  In c (list_ascii_of_string a) \/ In c (list_ascii_of_string b).
Proof.
  induction a as [|x a IH].
  - change (EmptyString +:+ b) with b. simpl. tauto.
  - change (String x a +:+ b) with (String x (a +:+ b)). simpl. rewrite IH. tauto.
Qed.

Lemma startsWith_app (a b : string) : startsWith (a +:+ b) a = true.
Proof. apply startsWith_spec. now exists b. Qed.

Lemma startsWith_refl (a : string) : startsWith a a = true.
Proof. induction a as [|x a IH]; simpl; [reflexivity|]. now rewrite Ascii.eqb_refl. Qed.

Lemma stored_address_has_colon (addr : string)
  (opts : option (list (string * Value))) (c : ZBClient) :
  constructor env addr opts = inr c ->
  In ":"%char (list_ascii_of_string (brokerAddress c)).
Proof.
  intros H. apply constructor_inv in H. destruct H as [_ [-> _]].
  destruct (Z.eqb_spec (indexOf addr ":") (-1)) as [He|He].
  - apply In_string_app. right. now left.
  - destruct (in_dec ascii_dec ":"%char (list_ascii_of_string addr)) as [Hin|Hn];
      [exact Hin|]. exfalso. now apply He, indexOf_absent.
Qed.

(** X3.  The address stored by a successful construction always has a port
    separator, begins with the address that was given, and is the address
    the gRPC client was created with. *)
Theorem constructor_stores_address_with_port (addr : string)
  (opts : option (list (string * Value))) (c : ZBClient) :
  constructor env addr opts = inr c ->
  In ":"%char (list_ascii_of_string (brokerAddress c)) /\
  startsWith (brokerAddress c) addr = true /\
  address (gRPCClient c) = brokerAddress c.
Proof.
  intros H. split; [now apply stored_address_has_colon with addr opts|].
  apply constructor_inv in H. destruct H as [_ [Hb [Hg _]]].
  split; [|exact Hg]. rewrite Hb.
  destruct (indexOf addr ":" =? -1); [apply startsWith_app | apply startsWith_refl].
Qed.

(** X4.  Normalising the address is idempotent: a client constructed from
    the address another client stored stores that same address. *)
Theorem constructor_address_idempotent (addr : string)
  (opts opts' : option (list (string * Value))) (c : ZBClient) :
  constructor env addr opts = inr c ->
  exists c', constructor env (brokerAddress c) opts' = inr c' /\
             brokerAddress c' = brokerAddress c.
Proof.
  intros H. pose proof (stored_address_has_colon addr opts c H) as Hin.
  assert (Hne : brokerAddress c <> EmptyString).
  { intros E. rewrite E in Hin. destruct Hin. }
  eexists. split; [now apply constructor_succeeds|]. simpl.
  destruct (Z.eqb_spec (indexOf (brokerAddress c) ":") (-1)) as [He|He];
    [|reflexivity].
  apply indexOf_absent in He. contradiction.
Qed.

(** X5.  Construction leaves every option other than [loglevel] as the
    caller gave it, and the [loglevel] it stores is never unset or empty. *)
Theorem constructor_options (addr : string)
  (opts : option (list (string * Value))) (c : ZBClient) :
  constructor env addr opts = inr c ->
  (forall k, k <> "loglevel" -> get (options c) k = get (default [] opts) k) /\
  truthy (get (options c) "loglevel") = true.
Proof.
  intros H. apply constructor_inv in H. destruct H as [_ [_ [_ [-> _]]]]. split.
  - intros k Hk. apply get_set_other. congruence.
  - rewrite get_set_same. unfold logical_or.
    destruct (truthy (env_value (ZB_NODE_LOG_LEVEL env))) eqn:E1; [exact E1|].
    destruct (truthy (get (default [] opts) "loglevel")) eqn:E2; [exact E2|].
    reflexivity.
Qed.

End ConstructionMore.

Lemma constructor_stores_address_with_port_witness :
  exists c, constructor demo_env "broker.internal" None = inr c /\
    In ":"%char (list_ascii_of_string (brokerAddress c)) /\
    startsWith (brokerAddress c) "broker.internal" = true /\
    address (gRPCClient c) = brokerAddress c.
Proof.
  eexists. split; [reflexivity|].
  apply (constructor_stores_address_with_port demo_env "broker.internal" None).
  reflexivity.
Defined.

Lemma constructor_address_idempotent_witness :
  exists c c', constructor demo_env "localhost" None = inr c /\
    constructor demo_env (brokerAddress c) None = inr c' /\
    brokerAddress c' = brokerAddress c.
Proof.
  eexists.
  destruct (constructor_address_idempotent demo_env "localhost" None None _ eq_refl)
    as [c' [H1 H2]].
  exists c'. split; [reflexivity|]. split; [exact H1 | exact H2].
Defined.

Lemma constructor_options_witness :
  exists c,
    constructor (env_with_loglevel (Some EmptyString)) "localhost"
      (Some [("longPoll", VNumber 30000); ("loglevel", VString EmptyString)]) = inr c /\
    (forall k, k <> "loglevel" ->
       get (options c) k
       = get (default [] (Some [("longPoll", VNumber 30000);
                                ("loglevel", VString EmptyString)])) k) /\
    truthy (get (options c) "loglevel") = true.
Proof.
  eexists. split; [reflexivity|].
  apply (constructor_options (env_with_loglevel (Some EmptyString)) "localhost"
           (Some [("longPoll", VNumber 30000); ("loglevel", VString EmptyString)])).
  reflexivity.
Defined.

(** *** Workers and closing *)
Section LifecycleMore.

Variable env : Env.

Lemma idColors_defined (n : nat) :
  exists colour, idColors !! (n mod length idColors)%nat = Some colour.
Proof.
  apply lookup_lt_is_Some. apply Nat.mod_upper_bound. discriminate.
Qed.

(** X6.  On a client that is not closing, [createWorker] returns a worker
    with the id, task type and handler it was given, appends it to the
    workers, and counts it.  The worker's colour is always one of the five:
    the one at the position of the previous worker count modulo five, so
    that colours repeat every five workers. *)
Theorem createWorker_appends (this : ZBClient) (id taskType : string)
  (taskHandler : nat) (options : option (list (string * Value)))
  (onConnectionError : option nat) :
  closing this = false ->
  exists w this' colour,
    createWorker this id taskType taskHandler options onConnectionError
    = (inr w, this') /\
    workers this' = workers this ++ [w] /\
    workerCount this' = S (workerCount this) /\
    closing this' = false /\
    w_id w = id /\ w_taskType w = taskType /\ w_taskHandler w = taskHandler /\
    w_onConnectionError w = onConnectionError /\
    w_gRPCClient w = gRPCClient this /\
    w_idColor w = Some colour /\
    idColors !! (workerCount this mod 5)%nat = Some colour /\
    idColors !! ((workerCount this + 5) mod 5)%nat = Some colour.
Proof.
  intros Hc. destruct (idColors_defined (workerCount this)) as [colour Hcol].
  unfold createWorker. rewrite Hc. do 3 eexists.
  split; [reflexivity|].
  cbn [workers workerCount closing w_id w_taskType w_taskHandler
       w_onConnectionError w_gRPCClient w_idColor].
  change (length idColors) with 5%nat in Hcol.
  repeat (split; [first [reflexivity | exact Hcol]|]).
  replace ((workerCount this + 5) mod 5)%nat with (workerCount this mod 5)%nat;
    [exact Hcol|].
  rewrite <- (Nat.Div0.add_mod_idemp_r _ 5 5).
  change (5 mod 5)%nat with 0%nat. now rewrite Nat.add_0_r.
Qed.

Lemma spread_absent (b a : list (string * Value)) (k : string) :
  ~ In k (map fst b) -> get (spread a b) k = get a k.
Proof.
  unfold spread. revert a. induction b as [|[k' v'] b IH]; intros a Hk; [reflexivity|].
  simpl in *. rewrite IH by tauto. apply get_set_other. tauto.
Qed.

Lemma spread_present (b a : list (string * Value)) (k : string) (v : Value) :
  NoDup (map fst b) -> In (k, v) b -> get (spread a b) k = v.
Proof.
  unfold spread. revert a. induction b as [|[k' v'] b IH]; intros a Hnd Hin; [destruct Hin|].
  simpl in *. apply NoDup_cons in Hnd. destruct Hnd as [Hk' Hnd].
  destruct Hin as [Heq|Hin].
  - injection Heq as -> ->.
    change (fold_left _ b (set a k v)) with (spread (set a k v) b).
    rewrite spread_absent; [apply get_set_same|].
    intros H. apply Hk'. now apply list_elem_of_In.
  - now apply IH.
Qed.

(** X7.  The options of a new worker are the client's options overridden
    by the options given to [createWorker]: a key the call does not give is
    inherited from the client, a key it gives takes the value given. *)
Theorem createWorker_merges_options (this : ZBClient) (id taskType : string)
  (taskHandler : nat) (given : list (string * Value))
  (onConnectionError : option nat) :
  closing this = false ->
  NoDup (map fst given) ->
  exists w this',
    createWorker this id taskType taskHandler (Some given) onConnectionError
    = (inr w, this') /\
    (forall k, ~ In k (map fst given) ->
               get (w_options w) k = get (options this) k) /\
    (forall k v, In (k, v) given -> get (w_options w) k = v).
Proof.
  intros Hc Hnd. unfold createWorker. rewrite Hc. do 2 eexists.
  split; [reflexivity|]. simpl. split.
  - intros k Hk. now apply spread_absent.
  - intros k v Hin. now apply spread_present.
Qed.

(** X8.  [close] is idempotent: once it has returned its promise, every
    further call returns the same promise and changes nothing. *)
Theorem close_idempotent (this this' : ZBClient) (p : list ZBWorker) :
  close env this = (inr p, this') ->
  close env this' = (inr p, this') /\ closePromise this' = Some p.
Proof.
  unfold close. destruct (closePromise this) as [p0|] eqn:E.
  - intros H. injection H as <- <-. now rewrite E.
  - destruct (map_err _ (workers this)); [discriminate|].
    intros H. injection H as <- <-. split; reflexivity.
Qed.

Lemma exec_fixed (op : Op) (s : ZBClient * World) :
  brokerAddress (exec env op s).2.1 = brokerAddress s.1 /\
  gRPCClient (exec env op s).2.1 = gRPCClient s.1 /\
  options (exec env op s).2.1 = options s.1.
Proof.
  destruct op; simpl; try (split; [|split]; reflexivity);
    try (rewrite on_world_client; split; [|split]; reflexivity).
  - unfold createWorker. destruct (closing s.1); simpl; repeat split.
  - unfold close. destruct (closePromise s.1); simpl; [repeat split|].
    destruct (map_err _ (workers s.1)); simpl; repeat split.
Qed.

(** X9.  Nothing a client does after construction changes the broker
    address, the gRPC client or the options it holds. *)
Theorem run_keeps_connection (ops : list Op) (s : ZBClient * World) :
  brokerAddress (run env ops s).1 = brokerAddress s.1 /\
  gRPCClient (run env ops s).1 = gRPCClient s.1 /\
  options (run env ops s).1 = options s.1.
Proof.
  revert s. induction ops as [|op ops IH]; intros s; simpl; [repeat split|].
  destruct (IH (exec env op s).2) as [H1 [H2 H3]].
  destruct (exec_fixed op s) as [E1 [E2 E3]].
  rewrite H1, H2, H3. repeat split; assumption.
Qed.

End LifecycleMore.

Lemma createWorker_appends_witness :
  constructor demo_env "localhost" None = inr demo_client /\
  exists w c' colour,
    createWorker demo_client "w1" "payment" 0%nat None None = (inr w, c') /\
    workers c' = workers demo_client ++ [w] /\ w_idColor w = Some colour.
Proof.
  split; [reflexivity|].
  destruct (createWorker_appends demo_client "w1" "payment" 0%nat None None eq_refl)
    as [w [c' [colour [H1 [H2 [_ [_ [_ [_ [_ [_ [_ [H3 _]]]]]]]]]]]]].
  exists w, c', colour. repeat split; assumption.
Defined.

Lemma createWorker_merges_options_witness :
  exists w c',
    createWorker demo_client "w1" "payment" 0%nat
      (Some [("longPoll", VNumber 30000)]) None = (inr w, c') /\
    get (w_options w) "loglevel" = VString "INFO" /\
    get (w_options w) "longPoll" = VNumber 30000.
Proof.
  destruct (createWorker_merges_options demo_client "w1" "payment" 0%nat
              [("longPoll", VNumber 30000)] None eq_refl)
    as [w [c' [H [Hkeep Hgiven]]]].
  - repeat constructor. intros H. inversion H.
  - exists w, c'. split; [exact H|]. split.
    + rewrite Hkeep; [reflexivity|]. simpl. intros [E|[]]. discriminate E.
    + apply Hgiven. now left.
Defined.

Lemma close_idempotent_witness :
  close demo_env demo_client
  = (inr [], {| brokerAddress := brokerAddress demo_client;
                closePromise := Some [];
                closing := true;
                gRPCClient := gRPCClient demo_client;
                options := options demo_client;
                workerCount := 0;
                workers := [] |}) /\
  close demo_env {| brokerAddress := brokerAddress demo_client;
                    closePromise := Some [];
                    closing := true;
                    gRPCClient := gRPCClient demo_client;
                    options := options demo_client;
                    workerCount := 0;
                    workers := [] |}
  = (inr [], {| brokerAddress := brokerAddress demo_client;
                closePromise := Some [];
                closing := true;
                gRPCClient := gRPCClient demo_client;
                options := options demo_client;
                workerCount := 0;
                workers := [] |}).
Proof.
  split; [reflexivity|].
  exact (proj1 (close_idempotent demo_env demo_client _ [] eq_refl)).
Defined.

(** *** What holds along every run *)
Section RunInvariants.

Variable env : Env.

Lemma exec_workers_grow (op : Op) (s : ZBClient * World) :
  exists more, workers (exec env op s).2.1 = workers s.1 ++ more.
Proof.
  destruct op; simpl;
    try (exists []; rewrite ?on_world_client; now rewrite app_nil_r).
  - unfold createWorker. destruct (closing s.1); simpl.
    + exists []. now rewrite app_nil_r.
    + eexists. reflexivity.
  - exists []. rewrite app_nil_r. unfold close.
    destruct (closePromise s.1); simpl; [reflexivity|].
    destruct (map_err _ (workers s.1)); reflexivity.
Qed.

Lemma exec_frozen (op : Op) (s : ZBClient * World) :
  closing s.1 = true ->
  workers (exec env op s).2.1 = workers s.1 /\
  workerCount (exec env op s).2.1 = workerCount s.1.
Proof.
  intros Hc. destruct op; simpl;
    try (rewrite ?on_world_client; split; reflexivity).
  - unfold createWorker. rewrite Hc. split; reflexivity.
  - unfold close. destruct (closePromise s.1); simpl; [split; reflexivity|].
    destruct (map_err _ (workers s.1)); split; reflexivity.
Qed.

(** X10.  A client never drops a worker: after any sequence of calls the
    workers it had are still there, in the same order, before the ones
    created since. *)
Theorem run_keeps_workers (ops : list Op) (s : ZBClient * World) :
  exists more, workers (run env ops s).1 = workers s.1 ++ more.
Proof.
  revert s. induction ops as [|op ops IH]; intros s; simpl.
  - exists []. now rewrite app_nil_r.
  - destruct (IH (exec env op s).2) as [m2 H2].
    destruct (exec_workers_grow op s) as [m1 H1].
    exists (m1 ++ m2). now rewrite H2, H1, app_assoc.
Qed.

(** X11.  Once a client is closing its workers are frozen: whatever is
    called afterwards, the list of workers and the worker count stay as
    they were. *)
Theorem run_frozen_when_closing (ops : list Op) (s : ZBClient * World) :
  closing s.1 = true ->
  workers (run env ops s).1 = workers s.1 /\
  workerCount (run env ops s).1 = workerCount s.1.
Proof.
  revert s. induction ops as [|op ops IH]; intros s Hc; simpl; [split; reflexivity|].
  destruct (exec_frozen op s Hc) as [E1 E2].
  destruct (IH (exec env op s).2 (exec_keeps_closing env op s Hc)) as [H1 H2].
  rewrite H1, H2. split; assumption.
Qed.

Lemma exec_promise_covers (op : Op) (s : ZBClient * World) :
  (forall p, closePromise s.1 = Some p -> closing s.1 = true /\ p = workers s.1) ->
  forall p, closePromise (exec env op s).2.1 = Some p ->
            closing (exec env op s).2.1 = true /\ p = workers (exec env op s).2.1.
Proof.
  intros Hi. destruct op; simpl; try (rewrite ?on_world_client; exact Hi).
  - unfold createWorker. destruct (closing s.1) eqn:Hc; simpl.
    + intros p Hp. rewrite Hc. split; [reflexivity | now apply Hi].
    + intros p Hp. destruct (Hi p Hp) as [Hc' _]. congruence.
  - unfold close. destruct (closePromise s.1) eqn:E; simpl.
    + intros p Hp. rewrite E in Hp. now apply Hi.
    + destruct (map_err _ (workers s.1)); simpl; intros p Hp; [discriminate|].
      injection Hp as <-. split; reflexivity.
Qed.

(** X12.  On a client built by the constructor, whenever a close promise
    is stored the client is closing and the promise is the one over all the
    workers of the client: no worker exists that the promise does not wait
    for. *)
Theorem close_promise_covers_workers (addr : string)
  (opts : option (list (string * Value))) (c : ZBClient) (w : World)
  (ops : list Op) (p : list ZBWorker) :
  constructor env addr opts = inr c ->
  closePromise (run env ops (c, w)).1 = Some p ->
  closing (run env ops (c, w)).1 = true /\ p = workers (run env ops (c, w)).1.
Proof.
  intros Hnew. apply constructor_inv in Hnew.
  destruct Hnew as [_ [_ [_ [_ [_ [Hcp _]]]]]].
  assert (H0 : forall q, closePromise (c, w).1 = Some q ->
                         closing (c, w).1 = true /\ q = workers (c, w).1).
  { simpl. intros q Hq. congruence. }
  revert p. generalize dependent (c, w). clear Hcp c w.
  induction ops as [|op ops IH]; intros s H0 p; simpl; [apply H0|].
  apply IH. now apply exec_promise_covers.
Qed.

End RunInvariants.

Lemma run_frozen_when_closing_witness :
  exists c,
    constructor demo_env "localhost" None = inr c /\
    let s := run demo_env [CreateWorker "w1" "payment" 0%nat None None; Close]
               (c, empty_world) in
    workers (run demo_env [CreateWorker "w2" "shipping" 1%nat None None; Topology] s).1
    = workers s.1 /\
    workerCount (run demo_env [CreateWorker "w2" "shipping" 1%nat None None; Topology] s).1
    = workerCount s.1.
Proof.
  eexists. split; [reflexivity|]. intros s.
  apply (run_frozen_when_closing demo_env
           [CreateWorker "w2" "shipping" 1%nat None None; Topology] s).
  reflexivity.
Defined.

Lemma close_promise_covers_workers_witness :
  exists c p,
    constructor demo_env "localhost" None = inr c /\
    let s := run demo_env
               [CreateWorker "w1" "payment" 0%nat None None; Close;
                CreateWorker "w2" "shipping" 1%nat None None]
               (c, empty_world) in
    closePromise s.1 = Some p /\ closing s.1 = true /\ p = workers s.1.
Proof.
  do 2 eexists. split; [reflexivity|]. intros s.
  assert (Hp : closePromise s.1 = Some (workers s.1)) by reflexivity.
  split; [exact Hp|].
  exact (close_promise_covers_workers demo_env "localhost" None _ empty_world
           [CreateWorker "w1" "payment" 0%nat None None; Close;
            CreateWorker "w2" "shipping" 1%nat None None] _ eq_refl Hp).
Defined.

(** *** Deployment: the other paths *)
Section DeployMore.

Variable env : Env.

Lemma filter_nothing_deployed (files : list WorkflowRequestObject) :
  List.filter (not_deployed env []) files = files.
Proof.
  induction files as [|f files IH]; [reflexivity|].
  cbn [List.filter]. rewrite IH. reflexivity.
Qed.

(** Reading stops at the first file that cannot be read. *)
Lemma read_fails (readable contents : list string) (bad : string)
  (rest : list string) (e : Error) (w : World) :
  Forall2 (fun p d => readFileSync env p = inr d) readable contents ->
  readFileSync env bad = inl e ->
  mapM (fun wf =>
          definition <- readFile env wf ;;
          ret (workflowRequest env wf definition)) (readable ++ bad :: rest) w
  = (inl e,
     {| heap := heap w; trace := trace w ++ map ReadFile (readable ++ [bad]) |}).
Proof.
  intros H Hbad. revert w. induction H as [|p d ps ds Hp _ IH]; intros w.
  - simpl. unfold bind at 1. unfold bind at 1. unfold readFile at 1.
    now rewrite Hbad.
  - simpl. unfold bind at 1. unfold bind at 1. unfold readFile at 1.
    rewrite Hp. unfold ret at 1. unfold bind at 1. rewrite IH. simpl.
    now rewrite <- app_assoc.
Qed.

(** [deployWorkflow] when [redeploy] is not false and the files can be
    read. *)
Lemma deploy_all_files (w : World) (workflow : string + list string)
  (redeploy : option bool) (contents : list string) :
  redeploy <> Some false ->
  Forall2 (fun p d => readFileSync env p = inr d) (paths_of workflow) contents ->
  let files := zip_with (workflowRequest env) (paths_of workflow) contents in
  let t := trace w ++ map ReadFile (paths_of workflow) in
  map name files = map (basename env) (paths_of workflow) /\
  map definition files = contents /\
  deployWorkflow env workflow redeploy w
  = match files with
    | [] => (inr (Resolved nothing_deployed), {| heap := heap w; trace := t |})
    | _ :: _ =>
        (inr (transport env t (deployment files).1 (deployment files).2),
         {| heap := heap w;
            trace := t ++ [Remote (deployment files).1 (deployment files).2] |})
    end.
Proof.
  intros Hre Hread files t. split; [|split].
  - subst files. induction Hread as [|p d ps ds _ _ IH]; [reflexivity|].
    simpl. now rewrite IH.
  - subst files. induction Hread as [|p d ps ds _ _ IH]; [reflexivity|].
    simpl. now rewrite IH.
  - assert (Hd : default true redeploy = true).
    { destruct redeploy as [[|]|]; [reflexivity | congruence | reflexivity]. }
    unfold deployWorkflow, async. rewrite Hd. simpl.
    unfold bind at 1. unfold ret at 1. unfold bind at 1.
    rewrite (read_all env (paths_of workflow) contents w Hread).
    rewrite filter_nothing_deployed. fold files. fold t.
    destruct files as [|f files']; simpl; [reflexivity|].
    unfold bind, call. simpl.
    destruct (transport env t deployWorkflowSync _); reflexivity.
Qed.

Lemma wfr_value_zip (paths contents : list string) :
  map wfr_value (zip_with (workflowRequest env) paths contents)
  = zip_with (fun p d => VObject [("definition", VString d);
                                  ("name", VString (basename env p));
                                  ("type", VNumber 1)]) paths contents.
Proof.
  revert contents. induction paths as [|p paths IH]; intros [|d contents];
    try reflexivity.
  simpl. now rewrite IH.
Qed.

(** X13.  Unless [redeploy] is false nothing is listed: when the files can
    be read they are all sent, in the order given, each with its contents,
    the base name of its path and type 1, in one deploy call whose answer
    is the result; with no file at all the result is the object
    [{key: -1, workflows: []}] and nothing is read or sent. *)
Theorem deployWorkflow_without_listing (w : World) (workflow : string + list string)
  (redeploy : option bool) (contents : list string) :
  redeploy <> Some false ->
  Forall2 (fun p d => readFileSync env p = inr d) (paths_of workflow) contents ->
  let t := trace w ++ map ReadFile (paths_of workflow) in
  let payload :=
    VObject [("workflows",
      VArray (zip_with (fun p d => VObject [("definition", VString d);
                                            ("name", VString (basename env p));
                                            ("type", VNumber 1)])
                       (paths_of workflow) contents))] in
  deployWorkflow env workflow redeploy w
  = match paths_of workflow with
    | [] =>
        (inr (Resolved (VObject [("key", VNumber (-1)); ("workflows", VArray [])])),
         {| heap := heap w; trace := trace w |})
    | _ :: _ =>
        (inr (transport env t deployWorkflowSync payload),
         {| heap := heap w; trace := t ++ [Remote deployWorkflowSync payload] |})
    end.
Proof.
  intros Hre Hread t payload.
  destruct (deploy_all_files w workflow redeploy contents Hre Hread) as [_ [_ H]].
  rewrite H. subst payload t.
  destruct Hread as [|p d paths ds Hp Hread].
  - simpl. now rewrite app_nil_r.
  - cbn [zip_with deployment fst snd]. rewrite <- wfr_value_zip. reflexivity.
Qed.

(** X14.  A file that cannot be read makes [deployWorkflow] reject with
    the error of the read; the files after it are not read and no deploy
    call is sent.  With [redeploy] false the listing has been sent by
    then, and it is the only call. *)
Theorem deployWorkflow_unreadable_file (w : World) (workflow : string + list string)
  (readable contents : list string) (bad : string) (rest : list string) (e : Error) :
  paths_of workflow = readable ++ bad :: rest ->
  Forall2 (fun p d => readFileSync env p = inr d) readable contents ->
  readFileSync env bad = inl e ->
  (forall redeploy, redeploy <> Some false ->
     deployWorkflow env workflow redeploy w
     = (inr (Rejected e),
        {| heap := heap w;
           trace := trace w ++ map ReadFile (readable ++ [bad]) |})) /\
  (forall response ids,
     transport env (trace w) listing.1 listing.2 = Resolved response ->
     bpmnProcessIds response = inr ids ->
     deployWorkflow env workflow (Some false) w
     = (inr (Rejected e),
        {| heap := heap w;
           trace := trace w ++ Remote listing.1 listing.2
                            :: map ReadFile (readable ++ [bad]) |})).
Proof.
  intros Hpaths Hread Hbad. split.
  - intros redeploy Hre.
    assert (Hd : default true redeploy = true).
    { destruct redeploy as [[|]|]; [reflexivity | congruence | reflexivity]. }
    unfold deployWorkflow, async. rewrite Hd, Hpaths. simpl.
    unfold bind at 1. unfold ret at 1. unfold bind at 1.
    now rewrite (read_fails readable contents bad rest e w Hread Hbad).
  - intros response ids Hlist Hids.
    unfold deployWorkflow, async. rewrite Hpaths. simpl.
    unfold bind at 1. unfold bind at 1. unfold bind at 1.
    unfold listWorkflows, call at 1. simpl in Hlist. simpl. rewrite Hlist.
    unfold bind at 1. simpl. rewrite Hids. simpl.
    rewrite (read_fails readable contents bad rest e _ Hread Hbad). simpl.
    now rewrite <- app_assoc.
Qed.

(** X15.  With [redeploy] false, a listing that is rejected, or answered
    by something from which the process ids cannot be read, makes
    [deployWorkflow] reject with that error; no file is read and nothing
    but the listing is sent. *)
Theorem deployWorkflow_listing_fails (w : World) (workflow : string + list string)
  (e : Error) :
  transport env (trace w) listing.1 listing.2 = Rejected e \/
  (exists response,
     transport env (trace w) listing.1 listing.2 = Resolved response /\
     bpmnProcessIds response = inl e) ->
  deployWorkflow env workflow (Some false) w
  = (inr (Rejected e),
     {| heap := heap w; trace := trace w ++ [Remote listing.1 listing.2] |}).
Proof.
  intros H. unfold deployWorkflow, async. simpl.
  unfold bind at 1. unfold bind at 1. unfold bind at 1.
  unfold listWorkflows, call at 1. simpl in H. simpl.
  destruct H as [H | [response [H Hids]]]; rewrite H; simpl; [reflexivity|].
  unfold bind at 1. simpl. now rewrite Hids.
Qed.

Lemma map_err_inr {A B} (f : A -> Error + B) (l : list A) (bs : list B) :
  map_err f l = inr bs <-> Forall2 (fun a b => f a = inr b) l bs.
Proof.
  revert bs. induction l as [|a l IH]; intros bs; simpl.
  - split; [intros H; injection H as <-; constructor | intros H; now inversion H].
  - destruct (f a) as [e|b] eqn:Ea.
    + split; [discriminate | intros H; inversion H; congruence].
    + destruct (map_err f l) as [e|bs'] eqn:El.
      * split; [discriminate|]. intros H. inversion H as [|? b' ? bs'' Hb Hl]; subst.
        apply IH in Hl. discriminate Hl.
      * split.
        -- intros H. injection H as <-. constructor; [exact Ea | now apply IH].
        -- intros H. inversion H as [|? b' ? bs'' Hb Hl]; subst.
           apply IH in Hl. congruence.
Qed.

(** X16.  The process ids can be read from the answer to the listing
    exactly when the answer is an object whose [workflows] is an array with
    no [undefined] or [null] element; the ids are then the [bpmnProcessId]
    of the elements, in order, [undefined] for an element that has none. *)
Theorem bpmnProcessIds_shape (response : Value) (ids : list Value) :
  bpmnProcessIds response = inr ids <->
  exists o xs,
    response = VObject o /\ get o "workflows" = VArray xs /\
    Forall2 (fun wf id =>
               wf <> VUndefined /\ wf <> VNull /\
               id = match wf with VObject props => get props "bpmnProcessId"
                                | _ => VUndefined end) xs ids.
Proof.
  unfold bpmnProcessIds. split.
  - destruct response; simpl; try discriminate.
    destruct (get props "workflows") as [| | | | |xs|] eqn:E; try discriminate.
    intros H. apply map_err_inr in H. exists props, xs.
    split; [reflexivity|]. split; [exact E|].
    eapply Forall2_impl; [exact H|]. intros wf id Hf.
    destruct wf; simpl in Hf; try discriminate;
      injection Hf as <-; repeat split; discriminate.
  - intros [o [xs [-> [Hw Hall]]]]. simpl. rewrite Hw.
    apply map_err_inr. eapply Forall2_impl; [exact Hall|].
    intros wf id [Hu [Hn ->]]. destruct wf; simpl; congruence.
Qed.

End DeployMore.

Lemma deployWorkflow_without_listing_witness :
  deployWorkflow demo_env (inr ["order.bpmn"; "billing.bpmn"]) None empty_world
  = (inr (Resolved (VObject [("key", VNumber 7); ("workflows", VArray [])])),
     {| heap := heap empty_world;
        trace :=
          [ReadFile "order.bpmn"; ReadFile "billing.bpmn";
           Remote deployWorkflowSync
             (VObject [("workflows",
                VArray [VObject [("definition", VString "order-process");
                                 ("name", VString "order.bpmn");
                                 ("type", VNumber 1)];
                        VObject [("definition", VString "billing-process");
                                 ("name", VString "billing.bpmn");
                                 ("type", VNumber 1)]])])] |}).
Proof.
  refine (deployWorkflow_without_listing demo_env empty_world
            (inr ["order.bpmn"; "billing.bpmn"]) None
            ["order-process"; "billing-process"] _ _).
  - discriminate.
  - repeat constructor.
Defined.

Lemma deployWorkflow_unreadable_file_witness :
  deployWorkflow demo_env (inr ["order.bpmn"; "missing.bpmn"; "billing.bpmn"]) None
    empty_world
  = (inr (Rejected (FsError "missing.bpmn")),
     {| heap := heap empty_world;
        trace := [ReadFile "order.bpmn"; ReadFile "missing.bpmn"] |}).
Proof.
  refine (proj1 (deployWorkflow_unreadable_file demo_env empty_world
                   (inr ["order.bpmn"; "missing.bpmn"; "billing.bpmn"])
                   ["order.bpmn"] ["order-process"] "missing.bpmn" ["billing.bpmn"]
                   (FsError "missing.bpmn") eq_refl _ eq_refl) None _).
  - repeat constructor.
  - discriminate.
Defined.

Lemma deployWorkflow_listing_fails_witness :
  deployWorkflow offline_env (inr ["order.bpmn"]) (Some false) empty_world
  = (inr (Rejected (GrpcError (VString "UNAVAILABLE"))),
     {| heap := heap empty_world;
        trace := [Remote listWorkflowsSync (VObject [("bpmnProcessId", VUndefined)])] |}).
Proof.
  apply (deployWorkflow_listing_fails offline_env empty_world (inr ["order.bpmn"])
           (GrpcError (VString "UNAVAILABLE"))).
  left. reflexivity.
Defined.

(** *** Requests: repeated calls, edge cases and the frame *)
Section RequestsMore.

Variable env : Env.

Lemma set_set_same (o : list (string * Value)) (k : string) (v v' : Value) :
  set (set o k v) k v' = set o k v'.
Proof.
  induction o as [|[k0 v0] o IH]; simpl.
  - now rewrite String.eqb_refl.
  - destruct (String.eqb k0 k) eqn:E; simpl.
    + now rewrite String.eqb_refl.
    + now rewrite E, IH.
Qed.

(** [setVariables] on a request whose [variables] are not an object. *)
Lemma setVariables_settled (w : World) (r : nat) (o : list (string * Value)) :
  heap w !! r = Some o ->
  String.eqb (typeof (get o "variables")) "object" = false ->
  setVariables env r w
  = (inr (transport env (trace w) setVariablesSync (VObject o)),
     {| heap := heap w; trace := trace w ++ [Remote setVariablesSync (VObject o)] |}).
Proof.
  intros Hr Ht. rewrite (setVariables_run env w r o Hr). simpl. now rewrite Ht.
Qed.

(** X17.  Calling [setVariables] a second time with the same request
    object does not encode the variables again: the second call sends what
    the first one sent and leaves the object as the first one left it. *)
Theorem setVariables_twice (w : World) (r : nat) (o : list (string * Value)) :
  heap w !! r = Some o ->
  let w1 := (setVariables env r w).2 in
  let w2 := (setVariables env r w1).2 in
  heap w2 = heap w1 /\
  exists sent,
    remote_calls (trace w2)
    = remote_calls (trace w)
      ++ [(setVariablesSync, VObject sent); (setVariablesSync, VObject sent)].
Proof.
  intros Hr w1 w2. subst w2 w1.
  rewrite (setVariables_run env w r o Hr). simpl.
  destruct (String.eqb (typeof (get o "variables")) "object") eqn:Ht.
  - apply String.eqb_eq in Ht.
    destruct (typeof_object_serializes _ Ht) as [text Htext].
    rewrite (setVariables_settled _ r (set o "variables" (JSON_stringify (get o "variables")))).
    + simpl. split; [reflexivity|]. eexists.
      rewrite !remote_calls_snoc, <- app_assoc. reflexivity.
    + simpl. apply lookup_insert_eq.
    + now rewrite get_set_same, Htext.
  - rewrite (setVariables_settled _ r o).
    + simpl. split; [reflexivity|]. eexists.
      rewrite !remote_calls_snoc, <- app_assoc. reflexivity.
    + exact Hr.
    + exact Ht.
Qed.

(** X18.  [setVariables] only encodes what [typeof] calls an object.  A
    request whose [variables] are absent, a number or a boolean is sent as
    it is and is not written to; [null], being an object for [typeof], is
    replaced by the text [null]. *)
Theorem setVariables_edge_cases (w : World) (r : nat) (o : list (string * Value)) :
  heap w !! r = Some o ->
  (typeof (get o "variables") <> "object" ->
     setVariables env r w
     = (inr (transport env (trace w) setVariablesSync (VObject o)),
        {| heap := heap w;
           trace := trace w ++ [Remote setVariablesSync (VObject o)] |})) /\
  (get o "variables" = VNull ->
     heap (setVariables env r w).2 !! r = Some (set o "variables" (VString "null"))).
Proof.
  intros Hr. split.
  - intros Ht. apply setVariables_settled; [exact Hr|].
    destruct (String.eqb_spec (typeof (get o "variables")) "object");
      [contradiction | reflexivity].
  - intros Hn. rewrite (setVariables_run env w r o Hr). simpl. rewrite Hn. simpl.
    apply lookup_insert_eq.
Qed.

(** X19.  Calling [getWorkflow] again with the same request object sends
    the same request again and leaves the object as the first call left
    it. *)
Theorem getWorkflow_twice (w : World) (r : nat) (o : list (string * Value)) :
  heap w !! r = Some o ->
  let w1 := (getWorkflow env r w).2 in
  let w2 := (getWorkflow env r w1).2 in
  heap w2 = heap w1 /\
  exists sent,
    remote_calls (trace w2)
    = remote_calls (trace w)
      ++ [(getWorkflowSync, VObject sent); (getWorkflowSync, VObject sent)].
Proof.
  intros Hr w1 w2. subst w2 w1.
  rewrite (getWorkflow_run env w r o Hr). simpl.
  destruct (match get o "bpmnProcessId" with VUndefined => false | _ => true end)
    eqn:Hhas.
  - set (v := logical_or (get o "version") (VNumber (-1))).
    assert (Hv : logical_or v (VNumber (-1)) = v).
    { unfold v, logical_or. destruct (truthy (get o "version")) eqn:E;
        [now rewrite E | reflexivity]. }
    assert (Hpid : get (set o "version" v) "bpmnProcessId" = get o "bpmnProcessId").
    { apply get_set_other. discriminate. }
    rewrite (getWorkflow_run env _ r (set o "version" v)); [|apply lookup_insert_eq].
    simpl. rewrite Hpid, Hhas, get_set_same, Hv, set_set_same.
    split; [apply insert_insert_eq|]. eexists.
    rewrite !remote_calls_snoc, <- app_assoc. reflexivity.
  - rewrite (getWorkflow_run env _ r o); [|exact Hr]. simpl. rewrite Hhas.
    split; [reflexivity|]. eexists.
    rewrite !remote_calls_snoc, <- app_assoc. reflexivity.
Qed.

(** X20.  In a [getWorkflow] request that names a process id, a version
    that is falsy (0, [null], the empty string) is treated as unset: the
    request is sent with version -1 and the caller's object is left holding
    -1. *)
Theorem getWorkflow_falsy_version (w : World) (r : nat) (o : list (string * Value)) :
  heap w !! r = Some o ->
  get o "bpmnProcessId" <> VUndefined ->
  truthy (get o "version") = false ->
  getWorkflow env r w
  = (inr (transport env (trace w) getWorkflowSync
            (VObject (set o "version" (VNumber (-1))))),
     {| heap := <[r := set o "version" (VNumber (-1))]> (heap w);
        trace := trace w
                 ++ [Remote getWorkflowSync (VObject (set o "version" (VNumber (-1))))] |}).
Proof.
  intros Hr Hpid Hv. rewrite (getWorkflow_run env w r o Hr). simpl.
  unfold logical_or. rewrite Hv.
  destruct (get o "bpmnProcessId"); [contradiction | reflexivity ..].
Qed.

(** X21.  [publishStartMessage] sends one publish call.  A request that
    has no correlation key is sent with the key of message start events;
    a request that has one keeps its own, the default does not replace
    it. *)
Theorem publishStartMessage_correlationKey (w : World)
  (request : list (string * Value)) :
  exists sent,
    publishStartMessage env request w
    = (inr (transport env (trace w) publishMessageSync (VObject sent)),
       {| heap := heap w;
          trace := trace w ++ [Remote publishMessageSync (VObject sent)] |}) /\
    (~ In "correlationKey" (map fst request) ->
       get sent "correlationKey" = VString "__MESSAGE_START_EVENT__") /\
    (NoDup (map fst request) ->
       forall v, In ("correlationKey", v) request -> get sent "correlationKey" = v).
Proof.
  eexists. split; [reflexivity|]. unfold stringifyVariables. split.
  - intros Hk. rewrite get_set_other by discriminate.
    rewrite spread_absent by exact Hk. reflexivity.
  - intros Hnd v Hin. rewrite get_set_other by discriminate.
    now apply spread_present.
Qed.

End RequestsMore.

Lemma setVariables_twice_witness :
  let w1 := (setVariables demo_env 1%nat demo_world).2 in
  let w2 := (setVariables demo_env 1%nat w1).2 in
  heap w2 = heap w1 /\
  exists sent,
    remote_calls (trace w2)
    = remote_calls (trace demo_world)
      ++ [(setVariablesSync, VObject sent); (setVariablesSync, VObject sent)].
Proof.
  apply (setVariables_twice demo_env demo_world 1%nat
           [("elementInstanceKey", VString "2251799813685249");
            ("variables", VObject [("status", VString "paid"); ("total", VNumber 42)])]).
  reflexivity.
Defined.

Lemma setVariables_edge_cases_witness :
  setVariables demo_env 3%nat demo_world
  = (inr (Resolved VUndefined),
     {| heap := heap demo_world;
        trace := [Remote setVariablesSync
                    (VObject [("workflowKey", VString "2251799813685250")])] |}).
Proof.
  refine (proj1 (setVariables_edge_cases demo_env demo_world 3%nat
                   [("workflowKey", VString "2251799813685250")] eq_refl) _).
  discriminate.
Defined.

Lemma getWorkflow_twice_witness :
  let w1 := (getWorkflow demo_env 2%nat demo_world).2 in
  let w2 := (getWorkflow demo_env 2%nat w1).2 in
  heap w2 = heap w1 /\
  exists sent,
    remote_calls (trace w2)
    = remote_calls (trace demo_world)
      ++ [(getWorkflowSync, VObject sent); (getWorkflowSync, VObject sent)].
Proof.
  apply (getWorkflow_twice demo_env demo_world 2%nat
           [("bpmnProcessId", VString "order-process")]).
  reflexivity.
Defined.

Lemma getWorkflow_falsy_version_witness :
  heap (getWorkflow demo_env 5%nat version_zero_world).2 !! 5%nat
  = Some [("bpmnProcessId", VString "order-process"); ("version", VNumber (-1))].
Proof.
  assert (Hr : heap version_zero_world !! 5%nat
               = Some [("bpmnProcessId", VString "order-process");
                       ("version", VNumber 0)]) by reflexivity.
  assert (Hpid : get [("bpmnProcessId", VString "order-process");
                      ("version", VNumber 0)] "bpmnProcessId" <> VUndefined)
    by discriminate.
  rewrite (getWorkflow_falsy_version demo_env version_zero_world 5%nat _
             Hr Hpid eq_refl).
  reflexivity.
Defined.

(** *** The frame: which request objects a call may write *)
Section Frame.

Variable env : Env.

(** X23.  [setVariables] and [getWorkflow] write to the request object
    they are given and to no other: every other object of the caller is
    afterwards as it was before. *)
Theorem requests_write_only_their_object (w : World) (r r' : nat) :
  r' <> r ->
  heap (setVariables env r w).2 !! r' = heap w !! r' /\
  heap (getWorkflow env r w).2 !! r' = heap w !! r'.
Proof.
  intros Hne. split.
  - destruct (heap w !! r) as [o|] eqn:Hr.
    + rewrite (setVariables_run env w r o Hr). simpl.
      destruct (String.eqb (typeof (get o "variables")) "object");
        [now apply lookup_insert_ne | reflexivity].
    + unfold setVariables, bind, load. now rewrite Hr.
  - destruct (heap w !! r) as [o|] eqn:Hr.
    + rewrite (getWorkflow_run env w r o Hr). simpl.
      destruct (get o "bpmnProcessId"); simpl;
        first [reflexivity | now apply lookup_insert_ne].
    + unfold getWorkflow, hasBpmnProcessId, bind, load. now rewrite Hr.
Qed.

End Frame.

Lemma requests_write_only_their_object_witness :
  heap (setVariables demo_env 1%nat demo_world).2 !! 2%nat = heap demo_world !! 2%nat /\
  heap (getWorkflow demo_env 1%nat demo_world).2 !! 2%nat = heap demo_world !! 2%nat.
Proof.
  apply (requests_write_only_their_object demo_env demo_world 1%nat 2%nat).
  discriminate.
Defined.
